(** * Cortex Analyst demo: the chat loop of [streamlit/cortex_analyst_demo.py]

    A shallow embedding of the script's session state, of
    [get_analyst_response], of [display_response] and of the input-handling
    block, followed by the properties of the conversation loop.

    Conventions.
    - A Python [str] is a [string] holding its UTF-8 bytes.
    - Code that can raise runs in the monad [M]: session state is threaded
      through, and a result is either a value or a raised exception.
    - What the host decides (what Streamlit widgets return, what Snowflake
      answers to a query, how long it takes) is read from a [world], one per
      run of the script.  A run goes from the first line of the script to
      its last, or to the first exception nobody catches; the host does not
      interrupt it.
    - The functions of the Python runtime the script relies on ([json.dumps],
      [json.loads], the text of interpreter-raised type errors) are the fields
      of a [python] record the development is parametrised by. *)

From Stdlib Require Import String Ascii List ZArith Bool Lia.
From Stdlib Require Import Floats.SpecFloat.
Import ListNotations.

Open Scope string_scope.
Open Scope list_scope.

(** ** Strings *)

Definition nl : string := String (ascii_of_nat 10) EmptyString.

Definition str_truthy (s : string) : bool :=
  match s with
  | EmptyString => false
  | String _ _ => true
  end.

Fixpoint concat_lines (ls : list string) : string :=
  match ls with
  | [] => EmptyString
  | l :: ls' => (l ++ concat_lines ls')%string
  end.

(** [needle in s] on two [str]s. *)
Fixpoint str_contains (needle s : string) : bool :=
  if prefix needle s then true
  else match s with
       | EmptyString => false
       | String _ s' => str_contains needle s'
       end.


(** Iterating a [str] yields its characters.  On the UTF-8 bytes a character
    is a lead byte followed by its continuation bytes (10xxxxxx). *)
Definition is_continuation (c : ascii) : bool :=
  let n := nat_of_ascii c in (128 <=? n)%nat && (n <? 192)%nat.

Fixpoint split_chars (s : string) : string * list string :=
  match s with
  | EmptyString => (EmptyString, [])
  | String c r =>
      let '(k, done) := split_chars r in
      if is_continuation c then (String c k, done)
      else (EmptyString, String c k :: done)
  end.

Definition str_chars (s : string) : list string :=
  let '(k, done) := split_chars s in
  if str_truthy k then k :: done else done.

(** ** Python values *)

Set Warnings "-register-all".

(** What [json.loads] can return, and so what a reply or a turn's content can
    be.  A [dict] keeps its keys in insertion order. *)
Inductive value : Type :=
| VNone
| VBool (b : bool)
| VInt (z : Z)
| VFloat (f : spec_float)
| VStr (s : string)
| VList (l : list value)
| VDict (d : list (string * value)).

Definition is_dict (v : value) : bool :=
  match v with VDict _ => true | _ => false end.

Definition is_str (v : value) : bool :=
  match v with VStr _ => true | _ => false end.

(** Truth value of an object in a condition. *)
Definition truthy (v : value) : bool :=
  match v with
  | VNone => false
  | VBool b => b
  | VInt z => negb (z =? 0)%Z
  | VFloat (S754_zero _) => false
  | VFloat _ => true
  | VStr s => str_truthy s
  | VList [] => false
  | VList (_ :: _) => true
  | VDict [] => false
  | VDict (_ :: _) => true
  end.

Fixpoint dict_get (k : string) (d : list (string * value)) : option value :=
  match d with
  | [] => None
  | (k', v) :: d' => if String.eqb k k' then Some v else dict_get k d'
  end.

(** One entry of [st.session_state.messages]: [{"role": ..., "content": ...}]. *)
Record turn : Type := Turn { role : string; content : value }.

Definition user_turn (text : string) : turn := Turn "user" (VStr text).
Definition assistant_turn (c : value) : turn := Turn "assistant" c.

(** ** Exceptions *)

Inductive py_op : Type :=
| OpIn         (* [k in v]             *)
| OpSubscript  (* [v[k]]               *)
| OpIter       (* [for x in v]         *)
| OpLabel.     (* [st.button(v, ...)]  *)

(** Subclasses of [Exception], told apart by who raises them. *)
Inductive exn : Type :=
| LibraryError (text : string)        (* Snowpark, json, Streamlit: [str(e) = text] *)
| TypeError (op : py_op) (v : value)  (* the interpreter, on an operand of the wrong type *)
| KeyError (key : string).            (* [d[key]] on a dict without [key] *)

Definition result (A : Type) : Type := (exn + A)%type.

(** ** The Python runtime the script calls into *)

Record python : Type := Python {
  json_dumps : list turn -> string;
  json_loads : option string -> result value;
  type_error_text : py_op -> value -> string
}.

Definition squote : string := String (ascii_of_nat 39) EmptyString.

(** [str(e)] *)
Definition str_e (py : python) (e : exn) : string :=
  match e with
  | LibraryError text => text
  | TypeError op v => type_error_text py op v
  | KeyError key => (squote ++ key ++ squote)%string
  end.

(** ** Session state and the host *)

Inductive widget : Type :=
| BtnSample (question : string)      (* key sample_<hash(question)>      *)
| BtnExecute                         (* key execute_sql                  *)
| BtnSuggestion (suggestion : string)(* key suggestion_<hash(suggestion)> *)
| BtnClear.

(** Queries sent through [session.sql]. *)
Inductive call : Type :=
| AnalystCall (sql_query : string)   (* [session.sql(sql_query).collect()]        *)
| ExecuteCall (sql : value).         (* [session.sql(response["sql"]).to_pandas()] *)

(** [st.session_state] once the script has initialised its three keys,
    together with the bookkeeping of the current run: the queries sent so far
    and the buttons created so far. *)
Record state : Type := State {
  messages : list turn;
  user_input : string;
  selected_semantic_model_path : string;
  calls : list call;
  widgets : list widget
}.

Record row : Type := Row { RESPONSE : option string }.

(** What Snowflake does with a query: how long the call took and what
    [collect()] produced. *)
Record remote : Type := Remote {
  elapsed_ms : Z;
  collected : result (list row)
}.

(** The host during one run of the script. *)
Record world : Type := World {
  chat_input : option string;
  st_button : list widget -> widget -> result bool;
  sql_collect : string -> remote
}.

(** ** Configuration constants *)

Definition API_ENDPOINT : string := "/api/v2/cortex/analyst/message".
Definition API_TIMEOUT : Z := 30000.

Definition default_semantic_model : string :=
  "@cortex_analyst_demo.revenue_timeseries.raw_data/revenue_timeseries.yaml".

Definition sample_questions : list string :=
  [ "What questions can I ask?";
    "What was our total revenue last month?";
    "Which product line has the highest profit margin?";
    "Show me revenue trends by region";
    "Compare actual vs forecasted revenue";
    "What is our average daily revenue by product line?";
    "Which region has the lowest cost of goods sold?";
    "Show me profit margins over time";
    "What are the top 5 days by revenue?";
    "How accurate are our revenue forecasts?" ].

Definition initial_state : state :=
  State [] "" default_semantic_model [] [].

(** ** The monad of script code *)

Definition M (A : Type) : Type := state -> result A * state.

Definition ret {A} (a : A) : M A := fun st => (inr a, st).

Definition raise {A} (e : exn) : M A := fun st => (inl e, st).

Definition bind {A B} (m : M A) (k : A -> M B) : M B :=
  fun st =>
    match m st with
    | (inr a, st') => k a st'
    | (inl e, st') => (inl e, st')
    end.

Notation "x <- m ;; k" := (bind m (fun x => k))
  (at level 61, m at next level, right associativity).
Notation "m ;;; k" := (bind m (fun _ => k))
  (at level 61, right associativity).

Definition lift {A} (r : result A) : M A := fun st => (r, st).

Definition gets {A} (f : state -> A) : M A := fun st => (inr (f st), st).

Definition modify (f : state -> state) : M unit := fun st => (inr tt, f st).

(** [try: body  except Exception as e: handler(e)] *)
Definition try_except {A} (body : M A) (handler : exn -> M A) : M A :=
  fun st =>
    match body st with
    | (inl e, st') => handler e st'
    | (inr a, st') => (inr a, st')
    end.

(** [for x in xs: body(x)] *)
Fixpoint for_each {A} (xs : list A) (body : A -> M unit) : M unit :=
  match xs with
  | [] => ret tt
  | x :: xs' => body x ;;; for_each xs' body
  end.

Definition set_messages (ms : list turn) (st : state) : state :=
  State ms (user_input st) (selected_semantic_model_path st) (calls st) (widgets st).

Definition set_user_input (s : string) (st : state) : state :=
  State (messages st) s (selected_semantic_model_path st) (calls st) (widgets st).

Definition log_call (c : call) (st : state) : state :=
  State (messages st) (user_input st) (selected_semantic_model_path st)
        (calls st ++ [c]) (widgets st).

Definition log_widget (wd : widget) (st : state) : state :=
  State (messages st) (user_input st) (selected_semantic_model_path st)
        (calls st) (widgets st ++ [wd]).

(** [st.session_state.messages.append(t)] *)
Definition append_message (t : turn) : M unit :=
  modify (fun st => set_messages (messages st ++ [t]) st).

(** [st.button(...)]: the host answers, given the buttons this run has
    already created. *)
Definition button (w : world) (wd : widget) : M bool :=
  fun st => (st_button w (widgets st) wd, log_widget wd st).

(** [session.sql(sql_query).collect()] *)
Definition session_sql_collect (w : world) (sql_query : string) : M (list row) :=
  fun st => (collected (sql_collect w sql_query), log_call (AnalystCall sql_query) st).

(** ** Operators on values *)

(** [needle in v] for a [str] needle. *)
Definition py_in (needle : string) (v : value) : result bool :=
  match v with
  | VDict d => inr (match dict_get needle d with Some _ => true | None => false end)
  | VList l =>
      inr (existsb (fun x => match x with
                             | VStr s => String.eqb needle s
                             | _ => false
                             end) l)
  | VStr s => inr (str_contains needle s)
  | _ => inl (TypeError OpIn v)
  end.

(** [v[key]] for a [str] key. *)
Definition py_subscript (v : value) (key : string) : result value :=
  match v with
  | VDict d => match dict_get key d with
               | Some x => inr x
               | None => inl (KeyError key)
               end
  | _ => inl (TypeError OpSubscript v)
  end.

(** The items [for x in v] runs through. *)
Definition py_iter (v : value) : result (list value) :=
  match v with
  | VList l => inr l
  | VStr s => inr (map VStr (str_chars s))
  | VDict d => inr (map (fun kv => VStr (fst kv)) d)
  | _ => inl (TypeError OpIter v)
  end.

(** [key in response and response[key]], as a condition. *)
Definition key_truthy (key : string) (response : value) : result bool :=
  match py_in key response with
  | inl e => inl e
  | inr false => inr false
  | inr true =>
      match py_subscript response key with
      | inl e => inl e
      | inr v => inr (truthy v)
      end
  end.

(** ** get_analyst_response *)

Definition indent8 : string := "        ".
Definition indent12 : string := "            ".

(** The f-string [sql_query]. *)
Definition sql_query (py : python) (msgs : list turn) (path : string) : string :=
  concat_lines
    [ nl;
      indent8; "SELECT SNOWFLAKE.CORTEX.ANALYST("; nl;
      indent12; squote; json_dumps py msgs; squote; ","; nl;
      indent12; squote; path; squote; nl;
      indent8; ") as response"; nl;
      indent8 ].

(** The f-string [error_msg], with [detail] for [str(e)]. *)
Definition error_msg (detail : string) : string :=
  concat_lines
    [ nl;
      indent8; "🚨 An error occurred while calling Cortex Analyst 🚨"; nl;
      indent8; nl;
      indent8; "**Error Details:**"; nl;
      indent8; "```"; nl;
      indent8; detail; nl;
      indent8; "```"; nl;
      indent8; nl;
      indent8; "**Troubleshooting Tips:**"; nl;
      indent8; "- Verify your semantic model path is correct"; nl;
      indent8; "- Ensure you have CORTEX_USER permissions"; nl;
      indent8; "- Check that the semantic model file exists in the specified stage"; nl;
      indent8; "- Verify your Snowflake account has Cortex features enabled"; nl;
      indent8 ].

Definition no_response : string := "No response received from Cortex Analyst".

Section Script.

Variable py : python.

(** The body of the [try] (lines 112-134).  [request_body] is built and never
    used; neither [API_ENDPOINT] nor [API_TIMEOUT] is read. *)
Definition analyst_try (w : world) (msgs : list turn) : M (value * option string) :=
  path <- gets selected_semantic_model_path ;;
  rows <- session_sql_collect w (sql_query py msgs path) ;;
  match rows with
  | r :: _ =>
      parsed_response <- lift (json_loads py (RESPONSE r)) ;;
      ret (parsed_response, None)
  | [] => ret (VDict [], Some no_response)
  end.

Definition get_analyst_response (w : world) (msgs : list turn)
  : M (value * option string) :=
  try_except (analyst_try w msgs)
             (fun e => ret (VDict [], Some (error_msg (str_e py e)))).

(** ** display_response *)

(** The branch under the Execute button: the query is sent, and whatever it
    raises is caught and shown with [st.error]. *)
Definition execute_query (sql : value) : M unit :=
  modify (log_call (ExecuteCall sql)).

(** Lines 208-209.  The label of [st.button] is declared a [str].  The
    embedding covers the hosts that refuse any other label with a type
    error; a host that accepts one would store it in [user_input] as it is. *)
Definition suggestion_button (w : world) (suggestion : value) : M unit :=
  match suggestion with
  | VStr s =>
      clicked <- button w (BtnSuggestion s) ;;
      if clicked then modify (set_user_input s) else ret tt
  | _ => raise (TypeError OpLabel suggestion)
  end.

(** Lines 160-161. *)
Definition show_message (response : value) : M unit :=
  has_message <- lift (py_in "message" response) ;;
  if has_message
  then _ <- lift (py_subscript response "message") ;; ret tt
  else ret tt.

(** Lines 164-202. *)
Definition show_sql (w : world) (response : value) : M unit :=
  has_sql <- lift (key_truthy "sql" response) ;;
  if has_sql
  then sql <- lift (py_subscript response "sql") ;;
       clicked <- button w BtnExecute ;;
       if clicked then execute_query sql else ret tt
  else ret tt.

(** Lines 205-209. *)
Definition show_suggestions (w : world) (response : value) : M unit :=
  has_suggestions <- lift (key_truthy "suggestions" response) ;;
  if has_suggestions
  then suggestions <- lift (py_subscript response "suggestions") ;;
       items <- lift (py_iter suggestions) ;;
       for_each items (suggestion_button w)
  else ret tt.

Definition display_response (w : world) (response : value) : M unit :=
  show_message response ;;;
  show_sql w response ;;;
  show_suggestions w response.

(** ** The page *)

(** Sidebar, lines 71-73. *)
Definition sidebar (w : world) : M unit :=
  for_each sample_questions
    (fun question =>
       clicked <- button w (BtnSample question) ;;
       if clicked then modify (set_user_input question) else ret tt).

(** Lines 215-224. *)
Definition display_message (w : world) (message : turn) : M unit :=
  if String.eqb (role message) "user" then ret tt
  else if is_dict (content message) then display_response w (content message)
  else ret tt.

Definition display_history (w : world) : M unit :=
  ms <- gets messages ;;
  for_each ms (display_message w).

Definition opt_truthy (o : option string) : bool :=
  match o with
  | Some s => str_truthy s
  | None => false
  end.

(** The condition of line 233. *)
Definition accepts (w : world) (st : state) : bool :=
  opt_truthy (chat_input w) || str_truthy (user_input st).

(** Line 235. *)
Definition current_input (w : world) (st : state) : string :=
  match chat_input w with
  | Some s => if str_truthy s then s else user_input st
  | None => user_input st
  end.

(** Lines 235-242: pick the input, empty the queue, record the user turn. *)
Definition accept_input (w : world) : M unit :=
  input <- gets (current_input w) ;;
  queued <- gets user_input ;;
  (if str_truthy queued then modify (set_user_input "") else ret tt) ;;;
  append_message (user_turn input).

(** Lines 251-277. *)
Definition respond (w : world) : M unit :=
  try_except
    (ms <- gets messages ;;
     reply <- get_analyst_response w ms ;;
     let '(response, error) := reply in
     match error with
     | Some err =>
         if str_truthy err
         then append_message (assistant_turn (VStr ("Error: " ++ err)))
         else display_response w response ;;;
              append_message (assistant_turn response)
     | None =>
         display_response w response ;;;
         append_message (assistant_turn response)
     end)
    (fun e =>
       append_message (assistant_turn (VStr ("Unexpected error: " ++ str_e py e)))).

(** Lines 233-277. *)
Definition handle_input (w : world) : M unit :=
  ok <- gets (accepts w) ;;
  if ok then accept_input w ;;; respond w else ret tt.

(** Line 282. *)
Definition clear_chat_history : state -> state := set_messages [].

(** Lines 280-283. *)
Definition clear_button (w : world) : M unit :=
  ms <- gets messages ;;
  match ms with
  | [] => ret tt
  | _ :: _ =>
      clicked <- button w BtnClear ;;
      if clicked then modify clear_chat_history else ret tt
  end.

Definition begin_run (st : state) : state :=
  State (messages st) (user_input st) (selected_semantic_model_path st) (calls st) [].

(** One run of the script, top to bottom. *)
Definition script_run (w : world) : M unit :=
  modify begin_run ;;;
  sidebar w ;;;
  display_history w ;;;
  handle_input w ;;;
  clear_button w.

(** ** Rounds of the conversation *)

(** How the round that [respond] plays ends: the reply was decoded and
    displayed, [get_analyst_response] reported an error, or an exception
    reached the handler of line 271. *)
Inductive outcome : Type :=
| Answered (response : value)
| Failed (error : string)
| Crashed (e : exn).

Definition respond_outcome (w : world) (st : state) : outcome :=
  match get_analyst_response w (messages st) st with
  | (inl e, _) => Crashed e
  | (inr (response, error), st1) =>
      match error with
      | Some err =>
          if str_truthy err then Failed err
          else match fst (display_response w response st1) with
               | inl e => Crashed e
               | inr _ => Answered response
               end
      | None =>
          match fst (display_response w response st1) with
          | inl e => Crashed e
          | inr _ => Answered response
          end
      end
  end.

(** The assistant turn each outcome leaves in the transcript. *)
Definition outcome_turn (o : outcome) : turn :=
  match o with
  | Answered response => assistant_turn response
  | Failed err => assistant_turn (VStr ("Error: " ++ err))
  | Crashed e => assistant_turn (VStr ("Unexpected error: " ++ str_e py e))
  end.

Definition succeeded (o : outcome) : bool :=
  match o with Answered _ => true | _ => false end.

(** The outcome of the round that [handle_input] starts from [st]. *)
Definition round_outcome (w : world) (st : state) : outcome :=
  respond_outcome w (snd (accept_input w st)).


(** One iteration of the loop: a sample or suggestion button may have queued
    a question (lines 73 and 209) before line 233 is reached. *)
Record step : Type := Step { queued : option string; host : world }.

Definition queue_input (q : option string) : M unit :=
  match q with
  | Some question => modify (set_user_input question)
  | None => ret tt
  end.

Definition loop_step (s : step) : M unit :=
  queue_input (queued s) ;;; handle_input (host s).

Definition loop (steps : list step) : M unit := for_each steps loop_step.

(** The input of the iteration is non-empty. *)
Definition accepted (s : step) (st : state) : bool :=
  accepts (host s) (snd (queue_input (queued s) st)).

Fixpoint all_accepted (steps : list step) (st : state) : bool :=
  match steps with
  | [] => true
  | s :: steps' => accepted s st && all_accepted steps' (snd (loop_step s st))
  end.

Fixpoint user_assistant (n : nat) : list string :=
  match n with
  | O => []
  | S n' => "user" :: "assistant" :: user_assistant n'
  end.

(** *** Suggestions *)

(** An assistant turn of the transcript carries [s] among its suggestions. *)
Definition offered (s : string) (st : state) : Prop :=
  exists t d l,
    In t (messages st) /\ role t <> "user" /\ content t = VDict d /\
    dict_get "suggestions" d = Some (VList l) /\ In (VStr s) l.

(** In this run the user pressed the button of suggestion [s] and did
    nothing else. *)
Definition selects (w : world) (s : string) : Prop :=
  chat_input w = None /\
  forall log wd,
    st_button w log wd =
    inr (match wd with
         | BtnSuggestion s' => String.eqb s' s
         | _ => false
         end).

(** The run gets as far as line 233. *)
Definition reaches_input (w : world) (st : state) : bool :=
  match (modify begin_run ;;; sidebar w ;;; display_history w) st with
  | (inr _, _) => true
  | (inl _, _) => false
  end.

(** *** Replies *)

Definition field_empty (key : string) (d : list (string * value)) : bool :=
  match dict_get key d with
  | None => true
  | Some v => negb (truthy v)
  end.

(** Message, generated query and suggestions are all absent or empty. *)
Definition empty_reply (d : list (string * value)) : bool :=
  field_empty "message" d && field_empty "sql" d && field_empty "suggestions" d.

Definition analyst_calls (cs : list call) : nat :=
  length (filter (fun c => match c with AnalystCall _ => true | _ => false end) cs).

End Script.

(** ** Frame conditions *)

(** Whether it returns or raises, [m] takes a state to one related by [R]. *)
Definition respects (R : state -> state -> Prop) {A} (m : M A) : Prop :=
  forall st, R st (snd (m st)).

(** Transcript and configuration are the same. *)
Definition same_session (st st' : state) : Prop :=
  messages st' = messages st /\
  selected_semantic_model_path st' = selected_semantic_model_path st.

Definition keeps {A} (m : M A) : Prop := respects same_session m.

(** No query went to the analyst in between. *)
Definition same_analyst_calls (st st' : state) : Prop :=
  analyst_calls (calls st') = analyst_calls (calls st).

(** The queued question is the same, or has become [s]. *)
Definition queues_only (s : string) (st st' : state) : Prop :=
  user_input st' = user_input st \/ user_input st' = s.

(** A user turn holds text; an assistant turn holds a reply or text. *)
Definition typed_turn (t : turn) : bool :=
  (String.eqb (role t) "user" && is_str (content t))
  || (String.eqb (role t) "assistant"
      && (is_dict (content t) || is_str (content t))).

(** The same host, with other durations for its queries. *)
Definition with_elapsed (ms : string -> Z) (w : world) : world :=
  World (chat_input w) (st_button w)
        (fun q => Remote (ms q) (collected (sql_collect w q))).

(** ** The exact state at the end of a round *)

Definition is_execute (c : call) : bool :=
  match c with
  | ExecuteCall _ => true
  | AnalystCall _ => false
  end.

(** Since [st], only Execute queries were sent. *)
Definition only_executes (st st' : state) : Prop :=
  exists tail, calls st' = calls st ++ tail /\ forallb is_execute tail = true.

Definition same_calls (st st' : state) : Prop := calls st' = calls st.

Definition same_input (st st' : state) : Prop := user_input st' = user_input st.

Definition same_widgets (st st' : state) : Prop := widgets st' = widgets st.

(** [None], a bool or a number: neither a container nor iterable. *)
Definition is_scalar (v : value) : bool :=
  match v with
  | VNone | VBool _ | VInt _ | VFloat _ => true
  | VStr _ | VList _ | VDict _ => false
  end.

Section Rounds.

Variable py : python.

(** What [get_analyst_response] returns when its query is [q]. *)
Definition reply_of (w : world) (q : string) : value * option string :=
  match collected (sql_collect w q) with
  | inl e => (VDict [], Some (error_msg (str_e py e)))
  | inr [] => (VDict [], Some no_response)
  | inr (r :: _) =>
      match json_loads py (RESPONSE r) with
      | inl e => (VDict [], Some (error_msg (str_e py e)))
      | inr v => (v, None)
      end
  end.

(** The query of the round that [handle_input] starts from [st]: the
    transcript with the new user turn, and the stored path. *)
Definition round_query (w : world) (st : state) : string :=
  sql_query py (messages st ++ [user_turn (current_input w st)])
            (selected_semantic_model_path st).

(** The state in which [respond] appends the assistant turn. *)
Definition respond_end (w : world) (st : state) : state :=
  match get_analyst_response py w (messages st) st with
  | (inl _, st1) => st1
  | (inr (response, error), st1) =>
      if opt_truthy error then st1
      else snd (display_response w response st1)
  end.

Definition round_end (w : world) (st : state) : state :=
  respond_end w (snd (accept_input w st)).

(** The state after the runs of a session, one host per run.  A run that
    ends in an exception leaves the state it had reached. *)
Definition session (ws : list world) (st : state) : state :=
  fold_left (fun st w => snd (script_run py w st)) ws st.

End Rounds.

(** ** What the host does with the buttons *)

(** No button raises. *)
Definition answers (w : world) : Prop :=
  forall log wd, exists b, st_button w log wd = inr b.

Definition execute_not_pressed (w : world) : Prop :=
  forall log, st_button w log BtnExecute <> inr true.

Definition clear_not_pressed (w : world) : Prop :=
  forall log, st_button w log BtnClear <> inr true.

Definition no_suggestion_pressed (w : world) : Prop :=
  forall log s, st_button w log (BtnSuggestion s) <> inr true.

Definition is_sample (q : string) (wd : widget) : bool :=
  match wd with
  | BtnSample q' => String.eqb q' q
  | _ => false
  end.

(** In this run the user pressed the button of suggestion [s] and delivered
    no other input: nothing was typed; whenever the host answers for the
    button of [s], it reports it pressed; and it reports no other suggestion
    pressed.  Any button may raise. *)
Definition suggestion_pressed (w : world) (s : string) : Prop :=
  opt_truthy (chat_input w) = false /\
  (forall log, st_button w log (BtnSuggestion s) <> inr false) /\
  (forall log s', st_button w log (BtnSuggestion s') = inr true -> s' = s).

(** The same for the button of sample question [q]; no suggestion is
    reported pressed either. *)
Definition sample_pressed (w : world) (q : string) : Prop :=
  opt_truthy (chat_input w) = false /\
  (forall log, st_button w log (BtnSample q) <> inr false) /\
  (forall log q', st_button w log (BtnSample q') = inr true -> q' = q) /\
  no_suggestion_pressed w.

(** ** The buttons of a reply *)

(** The items, if all of them are strings. *)
Fixpoint texts (items : list value) : option (list string) :=
  match items with
  | [] => Some []
  | VStr s :: items' =>
      match texts items' with
      | Some l => Some (s :: l)
      | None => None
      end
  | _ :: _ => None
  end.

(** The labels of the suggestion buttons lines 205-209 draw for the reply
    [d]; [None] when the suggestions cannot be iterated or one of them is
    not a string. *)
Definition suggestion_texts (d : list (string * value)) : option (list string) :=
  match dict_get "suggestions" d with
  | None => Some []
  | Some v =>
      if truthy v
      then match py_iter v with
           | inr items => texts items
           | inl _ => None
           end
      else Some []
  end.

(** A turn the history loop can draw without a type error. *)
Definition displayable (t : turn) : bool :=
  String.eqb (role t) "user"
  || match content t with
     | VDict d => match suggestion_texts d with
                  | Some _ => true
                  | None => false
                  end
     | _ => true
     end.

(** ** The page before the input block *)

(** Lines 19-230 of a run: the sidebar and the history. *)
Definition page (w : world) : M unit :=
  modify begin_run ;;; sidebar w ;;; display_history w.

(** ** Shapes of a transcript *)

(** User and assistant turns alternate, starting with a user turn. *)
Definition alternating (ms : list turn) : Prop :=
  exists n, map role ms = user_assistant n /\ length ms = 2 * n.

Section Queries.

Variable py : python.

(** An analyst query is built around the path [p]. *)
Definition uses_path (p : string) (c : call) : Prop :=
  match c with
  | AnalystCall q => exists msgs, q = sql_query py msgs p
  | ExecuteCall _ => True
  end.

(** Since [st], every analyst query was built around [p]. *)
Definition queries_with (p : string) (st st' : state) : Prop :=
  exists new, calls st' = calls st ++ new /\ Forall (uses_path p) new.

End Queries.

(** ** A runtime and hosts for the examples *)

Definition dquote : string := String (ascii_of_nat 34) EmptyString.

Definition quoted (s : string) : string := (dquote ++ s ++ dquote)%string.

(** [{"message": "ok"}] *)
Definition reply_ok : string :=
  ("{" ++ quoted "message" ++ ": " ++ quoted "ok" ++ "}")%string.

(** [{"suggestions": ["Show me revenue trends by region"]}] *)
Definition reply_suggesting : string :=
  ("{" ++ quoted "suggestions" ++ ": [" ++ quoted "Show me revenue trends by region" ++ "]}")%string.

(** The values of [json.loads] on the replies the examples use. *)
Definition loads_examples (s : option string) : result value :=
  match s with
  | None => inl (LibraryError "the JSON object must be str, bytes or bytearray, not NoneType")
  | Some t =>
      if String.eqb t reply_ok then inr (VDict [("message", VStr "ok")])
      else if String.eqb t "{}" then inr (VDict [])
      else if String.eqb t (quoted "hello") then inr (VStr "hello")
      else if String.eqb t reply_suggesting
           then inr (VDict [("suggestions", VList [VStr "Show me revenue trends by region"])])
      else inl (LibraryError "Expecting value: line 1 column 1 (char 0)")
  end.

(** The examples do not look at the serialised history, nor at the text of
    type errors. *)
Definition example_py : python :=
  Python (fun _ => "[]") loads_examples (fun _ _ => "TypeError").

Definition no_click : list widget -> widget -> result bool :=
  fun _ _ => inr false.

(** A host where the user typed [text] and Snowflake answers every query
    after [ms] milliseconds with [rows]. *)
Definition typing (text : string) (ms : Z) (rows : result (list row)) : world :=
  World (Some text) no_click (fun _ => Remote ms rows).

Definition one_row (reply : string) : result (list row) :=
  inr [Row (Some reply)].

(** A host where the user pressed one button, [pressed] telling which. *)
Definition pressing (pressed : widget -> bool) (rows : result (list row)) : world :=
  World None (fun _ wd => inr (pressed wd)) (fun _ => Remote 900 rows).

Definition is_suggestion (s : string) (wd : widget) : bool :=
  match wd with
  | BtnSuggestion s' => String.eqb s' s
  | _ => false
  end.

Definition is_clear (wd : widget) : bool :=
  match wd with
  | BtnClear => true
  | _ => false
  end.

Definition revenue_question : string := "What was our total revenue last month?".
Definition trends_question : string := "Show me revenue trends by region".

Definition compilation_error : exn :=
  LibraryError "SQL compilation error: unknown function SNOWFLAKE.CORTEX.ANALYST".

(** A typed question that is answered, then a sample question whose query
    fails. *)
Definition two_steps : list step :=
  [ Step None (typing revenue_question 1200 (one_row reply_ok));
    Step (Some trends_question) (pressing (fun _ => false) (inl compilation_error)) ].

Definition empty_path_state : state := State [] "" "" [] [].

(** A sample question is queued. *)
Definition queued_state : state :=
  State [] trends_question default_semantic_model [] [].

(** A transcript whose assistant turn suggests [s]. *)
Definition suggesting (s : string) : state :=
  State [ user_turn revenue_question;
          assistant_turn (VDict [("suggestions", VList [VStr s])]) ]
        "" default_semantic_model [] [].

(** The values of [json.loads] on two replies that are not objects. *)
Definition loads_scalars (s : option string) : result value :=
  match s with
  | None => inl (LibraryError "the JSON object must be str, bytes or bytearray, not NoneType")
  | Some t =>
      if String.eqb t "null" then inr VNone
      else if String.eqb t "42" then inr (VInt 42)
      else inl (LibraryError "Expecting value: line 1 column 1 (char 0)")
  end.

Definition scalar_py : python :=
  Python (fun _ => "[]") loads_scalars (fun _ _ => "TypeError").

Definition is_execute_button (wd : widget) : bool :=
  match wd with
  | BtnExecute => true
  | _ => false
  end.

(** A reply with a message, a query and one suggestion. *)
Definition full_reply : list (string * value) :=
  [ ("message", VStr "ok");
    ("sql", VStr "SELECT SUM(revenue) FROM daily_revenue");
    ("suggestions", VList [VStr trends_question]) ].

(** The user types a question, then presses the suggestion of the reply. *)
Definition two_runs : list world :=
  [ typing revenue_question 1200 (one_row reply_suggesting);
    pressing (is_suggestion trends_question) (inl compilation_error) ].

Definition widget_eqb (a b : widget) : bool :=
  match a, b with
  | BtnSample x, BtnSample y => String.eqb x y
  | BtnExecute, BtnExecute => true
  | BtnSuggestion x, BtnSuggestion y => String.eqb x y
  | BtnClear, BtnClear => true
  | _, _ => false
  end.

Definition duplicate_key : exn :=
  LibraryError "There are multiple widgets with the same key".

(** A host that refuses a button whose key the run has already used, and
    otherwise reports [pressed]; nothing is typed. *)
Definition keyed (pressed : widget -> bool) (rows : result (list row)) : world :=
  World None
        (fun log wd =>
           if existsb (widget_eqb wd) log then inl duplicate_key
           else inr (pressed wd))
        (fun _ => Remote 900 rows).

Definition one_query : string := "SELECT SUM(revenue) FROM daily_revenue".

(** [{"sql": "SELECT SUM(revenue) FROM daily_revenue"}] *)
Definition reply_sql : string :=
  ("{" ++ quoted "sql" ++ ": " ++ quoted one_query ++ "}")%string.

Definition loads_sql (s : option string) : result value :=
  match s with
  | None => inl (LibraryError "the JSON object must be str, bytes or bytearray, not NoneType")
  | Some t =>
      if String.eqb t reply_sql then inr (VDict [("sql", VStr one_query)])
      else inl (LibraryError "Expecting value: line 1 column 1 (char 0)")
  end.

Definition sql_py : python :=
  Python (fun _ => "[]") loads_sql (fun _ _ => "TypeError").

(** A transcript whose assistant turn carries a query and suggests [s]. *)
Definition answered_with_sql (s : string) : state :=
  State [ user_turn revenue_question;
          assistant_turn (VDict [ ("sql", VStr one_query);
                                  ("suggestions", VList [VStr s]) ]) ]
        "" default_semantic_model [] [].

(** * Properties *)

Section Properties.

Variable py : python.

(** ** Running the monad *)

Lemma bind_returns {A B} (m : M A) (k : A -> M B) st a st1 :
  m st = (inr a, st1) -> bind m k st = k a st1.
Proof. intros E. unfold bind. rewrite E. reflexivity. Qed.

Section Respects.

Variable R : state -> state -> Prop.
Hypothesis R_refl : forall st, R st st.
Hypothesis R_trans : forall a b c, R a b -> R b c -> R a c.

Lemma respects_bind {A B} (m : M A) (k : A -> M B) :
  respects R m -> (forall a, respects R (k a)) -> respects R (bind m k).
Proof.
  intros Hm Hk st. unfold bind.
  specialize (Hm st).
  destruct (m st) as [[e | a] st1]; simpl in Hm.
  - exact Hm.
  - exact (R_trans _ _ _ Hm (Hk a st1)).
Qed.

Lemma respects_try_except {A} (body : M A) (handler : exn -> M A) :
  respects R body -> (forall e, respects R (handler e)) ->
  respects R (try_except body handler).
Proof.
  intros Hb Hh st. unfold try_except.
  specialize (Hb st).
  destruct (body st) as [[e | a] st1]; simpl in Hb.
  - exact (R_trans _ _ _ Hb (Hh e st1)).
  - exact Hb.
Qed.

Lemma respects_for_each {A} (xs : list A) (body : A -> M unit) :
  (forall x, respects R (body x)) -> respects R (for_each xs body).
Proof.
  intros Hb. induction xs as [| x xs IH]; simpl.
  - intros st. apply R_refl.
  - apply respects_bind; [ apply Hb | intros _; exact IH ].
Qed.

End Respects.

Ltac respects_step refl trans :=
  match goal with
  | |- respects _ (bind _ _) => apply (respects_bind _ trans); [ | intros ? ]
  | |- respects _ (try_except _ _) =>
      apply (respects_try_except _ trans); [ | intros ? ]
  | |- respects _ (for_each _ _) =>
      apply (respects_for_each _ refl trans); intros ?
  | |- respects _ (if ?b then _ else _) => destruct b
  | |- respects _ (match ?x with _ => _ end) => destruct x
  | |- respects _ _ => solve [ intros ?; hnf; simpl; auto ]
  end.

Lemma same_session_refl st : same_session st st.
Proof. split; reflexivity. Qed.

Lemma same_session_trans a b c :
  same_session a b -> same_session b c -> same_session a c.
Proof. intros [H1 H2] [H3 H4]. split; congruence. Qed.

Ltac keeps_step :=
  unfold keeps; respects_step same_session_refl same_session_trans.

Lemma keeps_display_response w response : keeps (display_response w response).
Proof.
  unfold display_response, show_message, show_sql, show_suggestions.
  unfold suggestion_button, execute_query.
  repeat keeps_step.
Qed.

Lemma keeps_get_analyst_response w msgs : keeps (get_analyst_response py w msgs).
Proof.
  unfold get_analyst_response, analyst_try.
  repeat keeps_step.
Qed.

Lemma keeps_sidebar w : keeps (sidebar w).
Proof. unfold sidebar. repeat keeps_step. Qed.

Lemma keeps_display_history w : keeps (display_history w).
Proof.
  unfold display_history, display_message.
  repeat keeps_step; apply keeps_display_response.
Qed.

(** ** What each block does *)

Lemma accept_input_spec w st :
  accept_input w st =
  (inr tt,
   State (messages st ++ [user_turn (current_input w st)]) ""
         (selected_semantic_model_path st) (calls st) (widgets st)).
Proof.
  unfold accept_input, append_message, bind, gets, modify, ret.
  destruct st as [ms q path cs ws]; simpl.
  destruct q; reflexivity.
Qed.

Lemma respond_spec w st :
  exists st',
    respond py w st = (inr tt, st') /\
    messages st' = messages st ++ [outcome_turn py (respond_outcome py w st)] /\
    selected_semantic_model_path st' = selected_semantic_model_path st.
Proof.
  unfold respond, respond_outcome, try_except, append_message, modify.
  unfold bind at 1. unfold gets at 1.
  unfold bind at 1.
  destruct (keeps_get_analyst_response w (messages st) st) as [K1 K2].
  destruct (get_analyst_response py w (messages st) st)
    as [[e | [response error]] st1]; simpl in K1, K2.
  - eexists. split; [ reflexivity | ]. simpl. split; congruence.
  - assert (D : forall st2 r,
               display_response w response st1 = (r, st2) ->
               messages st2 = messages st /\
               selected_semantic_model_path st2 = selected_semantic_model_path st).
    { intros st2 r E. destruct (keeps_display_response w response st1) as [D1 D2].
      rewrite E in D1, D2. simpl in D1, D2. split; congruence. }
    destruct error as [err | ]; [ destruct (str_truthy err) | ].
    + eexists. split; [ reflexivity | ]. simpl. split; congruence.
    + unfold bind.
      destruct (display_response w response st1) as [[e | []] st2] eqn:E;
        destruct (D _ _ eq_refl) as [D1 D2];
        (eexists; split; [ reflexivity | ]; simpl; split; congruence).
    + unfold bind.
      destruct (display_response w response st1) as [[e | []] st2] eqn:E;
        destruct (D _ _ eq_refl) as [D1 D2];
        (eexists; split; [ reflexivity | ]; simpl; split; congruence).
Qed.

Lemma handle_input_skips w st :
  accepts w st = false -> handle_input py w st = (inr tt, st).
Proof.
  intros H. unfold handle_input, bind, gets. rewrite H. reflexivity.
Qed.

Lemma handle_input_spec w st :
  accepts w st = true ->
  exists st',
    handle_input py w st = (inr tt, st') /\
    messages st' =
      messages st ++ [user_turn (current_input w st);
                      outcome_turn py (round_outcome py w st)] /\
    selected_semantic_model_path st' = selected_semantic_model_path st.
Proof.
  intros H. unfold handle_input, round_outcome.
  unfold bind at 1. unfold gets at 1. rewrite H.
  unfold bind. rewrite accept_input_spec. simpl snd.
  set (st1 := State _ _ _ _ _).
  destruct (respond_spec w st1) as (st' & R & Hm & Hp).
  exists st'. split; [ exact R | ]. split.
  - rewrite Hm. subst st1. simpl. rewrite <- app_assoc. reflexivity.
  - rewrite Hp. reflexivity.
Qed.

(** ** The transcript grows by two turns per accepted input *)

Lemma role_outcome_turn o : role (outcome_turn py o) = "assistant".
Proof. destruct o; reflexivity. Qed.

Lemma queue_input_spec q st :
  exists st1,
    queue_input q st = (inr tt, st1) /\
    messages st1 = messages st.
Proof.
  destruct q as [question | ]; simpl; unfold modify, ret; eauto.
Qed.

Lemma loop_step_roles s st :
  accepted s st = true ->
  exists st',
    loop_step py s st = (inr tt, st') /\
    map role (messages st') = map role (messages st) ++ ["user"; "assistant"].
Proof.
  unfold accepted, loop_step. intros Hacc.
  destruct (queue_input_spec (queued s) st) as (st1 & Q & Hm).
  rewrite Q in Hacc. simpl in Hacc.
  rewrite (bind_returns _ _ _ _ _ Q).
  destruct (handle_input_spec (host s) st1 Hacc) as (st' & R & Hm' & _).
  exists st'. split; [ exact R | ].
  rewrite Hm', Hm, map_app. simpl. rewrite role_outcome_turn. reflexivity.
Qed.

Lemma loop_roles steps :
  forall st,
    all_accepted py steps st = true ->
    exists st',
      loop py steps st = (inr tt, st') /\
      map role (messages st') =
        map role (messages st) ++ user_assistant (length steps).
Proof.
  induction steps as [| s steps IH]; intros st Hall.
  - exists st. split; [ reflexivity | ]. simpl. rewrite app_nil_r. reflexivity.
  - simpl in Hall. apply andb_prop in Hall. destruct Hall as [Hs Hrest].
    destruct (loop_step_roles s st Hs) as (st1 & R & Hm).
    rewrite R in Hrest. simpl in Hrest.
    destruct (IH st1 Hrest) as (st' & L & Hm').
    exists st'. split.
    + unfold loop. simpl. rewrite (bind_returns _ _ _ _ _ R). exact L.
    + rewrite Hm', Hm, <- app_assoc. reflexivity.
Qed.

Lemma length_user_assistant n : length (user_assistant n) = 2 * n.
Proof. induction n as [| n IH]; simpl; [ reflexivity | rewrite IH; lia ]. Qed.

(** C1. Starting from an empty transcript, after N iterations of the loop
    that each receive a non-empty input (typed, or queued by a button), the
    loop has returned normally, the transcript holds exactly 2N turns, and
    they alternate user, assistant, user, assistant, ...: every accepted input
    adds one user turn and one assistant turn, whatever the query, the
    decoding of the reply or its display did in that iteration. *)
Theorem transcript_length_2N (steps : list step) (st : state) :
  messages st = [] ->
  all_accepted py steps st = true ->
  exists st',
    loop py steps st = (inr tt, st') /\
    length (messages st') = 2 * length steps /\
    map role (messages st') = user_assistant (length steps).
Proof.
  intros Hempty Hall.
  destruct (loop_roles steps st Hall) as (st' & L & Hm).
  rewrite Hempty in Hm. simpl in Hm.
  exists st'. split; [ exact L | ]. split; [ | exact Hm ].
  rewrite <- (length_map role), Hm. apply length_user_assistant.
Qed.

(** ** get_analyst_response *)


Lemma analyst_try_spec w msgs st :
  let q := sql_query py msgs (selected_semantic_model_path st) in
  analyst_try py w msgs st =
  (match collected (sql_collect w q) with
   | inl e => inl e
   | inr [] => inr (VDict [], Some no_response)
   | inr (r :: _) =>
       match json_loads py (RESPONSE r) with
       | inl e => inl e
       | inr v => inr (v, None)
       end
   end,
   log_call (AnalystCall q) st).
Proof.
  unfold analyst_try, bind, gets, session_sql_collect, lift, ret. simpl.
  destruct (collected (sql_collect w _)) as [e | [| r rest]]; simpl;
    try reflexivity.
  destruct (json_loads py (RESPONSE r)); reflexivity.
Qed.


(** C2, as the code has it. With an empty semantic-model path nothing is
    checked before the call: [get_analyst_response] sends exactly one query,
    built around the empty path, and when Snowflake answers it with a row
    whose reply decodes, that reply is returned with no error. *)
Theorem empty_path_still_queries (w : world) (msgs : list turn) (st : state) :
  selected_semantic_model_path st = "" ->
  exists reply st',
    get_analyst_response py w msgs st = (inr reply, st') /\
    calls st' = calls st ++ [AnalystCall (sql_query py msgs "")] /\
    forall r rest v,
      collected (sql_collect w (sql_query py msgs "")) = inr (r :: rest) ->
      json_loads py (RESPONSE r) = inr v ->
      reply = (v, None).
Proof.
  intros Hpath.
  unfold get_analyst_response, try_except.
  rewrite analyst_try_spec. cbv zeta. rewrite Hpath.
  destruct (collected (sql_collect w _)) as [e | [| r rest]].
  - do 2 eexists. split; [ reflexivity | ]. split; [ reflexivity | ].
    intros; discriminate.
  - do 2 eexists. split; [ reflexivity | ]. split; [ reflexivity | ].
    intros; discriminate.
  - destruct (json_loads py (RESPONSE r)) as [e | v] eqn:E.
    + do 2 eexists. split; [ reflexivity | ]. split; [ reflexivity | ].
      intros r' rest' v' H1 H2. injection H1 as -> ->. congruence.
    + do 2 eexists. split; [ reflexivity | ]. split; [ reflexivity | ].
      intros r' rest' v' H1 H2. injection H1 as -> ->. congruence.
Qed.

(** The duration of a query is never read. *)
Lemma elapsed_is_ignored ms w st :
  handle_input py (with_elapsed ms w) st = handle_input py w st.
Proof. reflexivity. Qed.

Lemma key_truthy_empty key d :
  field_empty key d = true -> key_truthy key (VDict d) = inr false.
Proof.
  unfold field_empty, key_truthy. simpl.
  destruct (dict_get key d) as [v | ]; [ | reflexivity ].
  intros H. apply negb_true_iff in H. rewrite H. reflexivity.
Qed.

Lemma display_empty_reply w d st :
  empty_reply d = true -> display_response w (VDict d) st = (inr tt, st).
Proof.
  unfold empty_reply. intros H.
  apply andb_prop in H. destruct H as [H Hsug].
  apply andb_prop in H. destruct H as [_ Hsql].
  unfold display_response, show_message, show_sql, show_suggestions.
  unfold bind, lift, ret.
  rewrite (key_truthy_empty _ _ Hsql), (key_truthy_empty _ _ Hsug).
  simpl. destruct (dict_get "message" d); reflexivity.
Qed.

(** ** One query per round *)

Lemma analyst_calls_app cs c :
  analyst_calls (cs ++ [c]) =
  analyst_calls cs + match c with AnalystCall _ => 1 | ExecuteCall _ => 0 end.
Proof.
  unfold analyst_calls. rewrite filter_app, length_app.
  destruct c; simpl; lia.
Qed.

Lemma same_analyst_calls_refl st : same_analyst_calls st st.
Proof. reflexivity. Qed.

Lemma same_analyst_calls_trans a b c :
  same_analyst_calls a b -> same_analyst_calls b c -> same_analyst_calls a c.
Proof. unfold same_analyst_calls. congruence. Qed.

Lemma execute_query_same_calls sql : respects same_analyst_calls (execute_query sql).
Proof.
  intros st. unfold execute_query, modify, same_analyst_calls. simpl.
  rewrite analyst_calls_app. lia.
Qed.

Lemma display_response_same_calls w response :
  respects same_analyst_calls (display_response w response).
Proof.
  unfold display_response, show_message, show_sql, show_suggestions.
  unfold suggestion_button.
  repeat first
    [ apply execute_query_same_calls
    | respects_step same_analyst_calls_refl same_analyst_calls_trans ].
Qed.

Lemma get_analyst_response_calls w msgs st :
  calls (snd (get_analyst_response py w msgs st)) =
  calls st ++ [AnalystCall (sql_query py msgs (selected_semantic_model_path st))].
Proof.
  unfold get_analyst_response, try_except.
  rewrite analyst_try_spec. cbv zeta.
  destruct (collected (sql_collect w _)) as [e | [| r rest]]; try reflexivity.
  destruct (json_loads py (RESPONSE r)); reflexivity.
Qed.

(** An accepted input costs exactly one query to the analyst, whatever its
    outcome: nothing is sent twice. *)
Lemma one_query_per_round w st :
  accepts w st = true ->
  analyst_calls (calls (snd (handle_input py w st))) = analyst_calls (calls st) + 1.
Proof.
  intros Hacc. unfold handle_input.
  unfold bind at 1. unfold gets at 1. rewrite Hacc.
  unfold bind at 1. rewrite accept_input_spec.
  set (st1 := State _ _ _ _ _).
  change (analyst_calls (calls st)) with (analyst_calls (calls st1)).
  unfold respond, try_except, append_message, modify.
  unfold bind at 1. unfold gets at 1. unfold bind at 1.
  pose proof (get_analyst_response_calls w (messages st1) st1) as G.
  destruct (get_analyst_response py w (messages st1) st1)
    as [[e | [response error]] st2]; simpl in G.
  - simpl. rewrite G, analyst_calls_app. reflexivity.
  - assert (D : analyst_calls (calls (snd (display_response w response st2)))
                = analyst_calls (calls st1) + 1).
    { rewrite (display_response_same_calls w response st2), G, analyst_calls_app.
      reflexivity. }
    destruct error as [err | ]; [ destruct (str_truthy err) | ].
    + simpl. rewrite G, analyst_calls_app. reflexivity.
    + unfold bind.
      destruct (display_response w response st2) as [[e | []] st3]; exact D.
    + unfold bind.
      destruct (display_response w response st2) as [[e | []] st3]; exact D.
Qed.

(** ** A whole run *)

Lemma handle_input_cases w st :
  exists st',
    handle_input py w st = (inr tt, st') /\
    (messages st' = messages st \/
     exists u a,
       messages st' = messages st ++ [u; a] /\
       role u = "user" /\ role a = "assistant").
Proof.
  destruct (accepts w st) eqn:Hacc.
  - destruct (handle_input_spec w st Hacc) as (st' & R & Hm & _).
    exists st'. split; [ exact R | ]. right.
    eexists _, _. split; [ exact Hm | ].
    split; [ reflexivity | apply role_outcome_turn ].
  - exists st. split; [ apply handle_input_skips; exact Hacc | ]. auto.
Qed.

Lemma clear_button_cases w st :
  exists r st',
    clear_button w st = (r, st') /\
    (messages st' = messages st \/ messages st' = []).
Proof.
  unfold clear_button, bind, gets, button.
  destruct (messages st) as [| t ms] eqn:E.
  - exists (inr tt), st. auto.
  - destruct (st_button w (widgets st) BtnClear) as [e | []];
      (do 2 eexists; split; [ reflexivity | simpl; auto ]).
Qed.

(** A run of the script leaves the transcript as it was, empties it, or
    appends one user turn followed by one assistant turn. *)
Lemma script_run_transcript w st :
  exists r st',
    script_run py w st = (r, st') /\
    (messages st' = messages st \/
     messages st' = [] \/
     exists u a,
       messages st' = messages st ++ [u; a] /\
       role u = "user" /\ role a = "assistant").
Proof.
  unfold script_run.
  unfold bind at 1. unfold modify at 1.
  unfold bind at 1.
  destruct (keeps_sidebar w (begin_run st)) as [Ks _].
  destruct (sidebar w (begin_run st)) as [[e | []] st1]; simpl in Ks;
    [ do 2 eexists; split; [ reflexivity | left; exact Ks ] | ].
  unfold bind at 1.
  destruct (keeps_display_history w st1) as [Kh _].
  destruct (display_history w st1) as [[e | []] st2]; simpl in Kh;
    [ do 2 eexists; split; [ reflexivity | left; congruence ] | ].
  unfold bind at 1.
  destruct (handle_input_cases w st2) as (st3 & R & Hm). rewrite R.
  destruct (clear_button_cases w st3) as (r & st4 & C & [Hc | Hc]);
    exists r, st4; (split; [ exact C | ]); [ | auto ].
  destruct Hm as [Hm | (u & a & Hm & Hu & Ha)].
  - left. congruence.
  - right. right. exists u, a. split; [ congruence | auto ].
Qed.

(** ** Clearing *)

(** C6. Whatever the transcript holds, once the user presses the Clear
    button the transcript is empty; the queued question and the configuration
    are untouched.  (On an empty transcript the button is not drawn, and the
    transcript stays empty.) *)
Theorem clear_empties_transcript (w : world) (st : state) :
  st_button w (widgets st) BtnClear = inr true ->
  exists st',
    clear_button w st = (inr tt, st') /\
    messages st' = [] /\
    user_input st' = user_input st /\
    selected_semantic_model_path st' = selected_semantic_model_path st.
Proof.
  intros Hclick. unfold clear_button.
  unfold bind at 1. unfold gets at 1.
  destruct (messages st) as [| t ms] eqn:E.
  - exists st. unfold ret. auto.
  - unfold bind, button. rewrite Hclick.
    eexists. split; [ reflexivity | ]. simpl. auto.
Qed.

(** ** Typed and queued input *)

(** C9. After lines 235-242 the queue is empty, in every case.  When the
    chat box delivered a non-empty text, that text is the user turn, whatever
    was queued: the iteration appends the typed user turn and one assistant
    turn, and nothing that was queued. *)
Theorem typed_input_wins (w : world) (st : state) :
  user_input (snd (accept_input w st)) = "" /\
  forall typed,
    chat_input w = Some typed ->
    str_truthy typed = true ->
    messages (snd (accept_input w st)) = messages st ++ [user_turn typed] /\
    exists st',
      handle_input py w st = (inr tt, st') /\
      messages st' =
        messages st ++ [user_turn typed; outcome_turn py (round_outcome py w st)].
Proof.
  rewrite accept_input_spec. simpl. split; [ reflexivity | ].
  intros typed Hchat Htyped.
  assert (Hcur : current_input w st = typed).
  { unfold current_input. rewrite Hchat, Htyped. reflexivity. }
  rewrite Hcur. split; [ reflexivity | ].
  assert (Hacc : accepts w st = true).
  { unfold accepts. rewrite Hchat. simpl. rewrite Htyped. reflexivity. }
  destruct (handle_input_spec w st Hacc) as (st' & R & Hm & _).
  exists st'. rewrite Hcur in Hm. auto.
Qed.

(** ** Error text *)








(** ** Content types *)

Lemma outcome_turn_content o :
  (forall v, o = Answered v -> is_dict v = true) ->
  is_dict (content (outcome_turn py o)) = succeeded o /\
  is_str (content (outcome_turn py o)) = negb (succeeded o).
Proof.
  intros Hdict. destruct o as [v | err | e]; simpl; auto.
  specialize (Hdict v eq_refl). destruct v; try discriminate. auto.
Qed.

(** For replies that are objects.  In an accepted iteration whose reply, if
    one is decoded and displayed, is a dict, the assistant turn holds a dict
    exactly when the round succeeded and a string exactly when it failed. *)
Theorem content_type_tells_outcome (w : world) (st : state) :
  accepts w st = true ->
  (forall v, round_outcome py w st = Answered v -> is_dict v = true) ->
  exists st' u a,
    handle_input py w st = (inr tt, st') /\
    messages st' = messages st ++ [u; a] /\
    role u = "user" /\ is_str (content u) = true /\
    role a = "assistant" /\
    is_dict (content a) = succeeded (round_outcome py w st) /\
    is_str (content a) = negb (succeeded (round_outcome py w st)) /\
    (forallb typed_turn (messages st) = true ->
     forallb typed_turn (messages st') = true).
Proof.
  intros Hacc Hdict.
  destruct (handle_input_spec w st Hacc) as (st' & R & Hm & _).
  destruct (outcome_turn_content _ Hdict) as [Hd Hs].
  exists st', (user_turn (current_input w st)),
    (outcome_turn py (round_outcome py w st)).
  split; [ exact R | ]. split; [ exact Hm | ].
  split; [ reflexivity | ]. split; [ reflexivity | ].
  split; [ apply role_outcome_turn | ].
  split; [ exact Hd | ]. split; [ exact Hs | ].
  intros Hall. rewrite Hm, forallb_app, Hall. simpl.
  unfold typed_turn at 1. rewrite role_outcome_turn, Hd, Hs. simpl.
  destruct (succeeded _); reflexivity.
Qed.

(** ** What ends up queued *)

Lemma bind_returned {A B} (m : M A) (k : A -> M B) st b st' :
  bind m k st = (inr b, st') ->
  exists a st1, m st = (inr a, st1) /\ k a st1 = (inr b, st').
Proof.
  unfold bind. destruct (m st) as [[e | a] st1]; [ discriminate | eauto ].
Qed.

Lemma queues_only_refl s st : queues_only s st st.
Proof. left. reflexivity. Qed.

Lemma queues_only_trans s a b c :
  queues_only s a b -> queues_only s b c -> queues_only s a c.
Proof.
  unfold queues_only.
  intros [H1 | H1] [H2 | H2]; first [ left; congruence | right; congruence ].
Qed.

Lemma queues_only_sticky s st st' :
  queues_only s st st' -> user_input st = s -> user_input st' = s.
Proof. intros [H | H] E; congruence. Qed.

Section Queueing.

Variable s : string.

Lemma for_each_hit {A} (body : A -> M unit) (P : A -> Prop) :
  (forall x, respects (queues_only s) (body x)) ->
  (forall x st st', P x -> body x st = (inr tt, st') -> user_input st' = s) ->
  forall xs st st',
    for_each xs body st = (inr tt, st') ->
    (exists x, In x xs /\ P x) ->
    user_input st' = s.
Proof.
  intros Hq Hhit. induction xs as [| a xs IH]; intros st st' Hrun (x & Hin & HP).
  - destruct Hin.
  - simpl in Hrun. apply bind_returned in Hrun.
    destruct Hrun as ([] & st1 & Hbody & Hrest).
    destruct Hin as [-> | Hin].
    + pose proof (respects_for_each _ (queues_only_refl s) (queues_only_trans s)
                    xs body Hq st1) as Hkeep.
      rewrite Hrest in Hkeep. simpl in Hkeep.
      exact (queues_only_sticky _ _ _ Hkeep (Hhit _ _ _ HP Hbody)).
    + apply (IH st1 st' Hrest). eauto.
Qed.

End Queueing.

End Properties.

(** * Further properties of the script *)

Section Further.

Variable py : python.

Ltac frame_step refl trans :=
  match goal with
  | |- respects _ (bind _ _) => apply (respects_bind _ trans); [ | intros ? ]
  | |- respects _ (try_except _ _) =>
      apply (respects_try_except _ trans); [ | intros ? ]
  | |- respects _ (for_each _ _) =>
      apply (respects_for_each _ refl trans); intros ?
  | |- respects _ (if ?b then _ else _) => destruct b
  | |- respects _ (match ?x with _ => _ end) => destruct x
  end.

(** ** The exact effect of a round *)

Lemma get_analyst_response_exact w msgs st :
  let q := sql_query py msgs (selected_semantic_model_path st) in
  get_analyst_response py w msgs st =
  (inr (reply_of py w q), log_call (AnalystCall q) st).
Proof.
  unfold get_analyst_response, try_except, reply_of.
  rewrite analyst_try_spec. cbv zeta.
  destruct (collected (sql_collect w _)) as [e | [| r rest]]; try reflexivity.
  destruct (json_loads py (RESPONSE r)); reflexivity.
Qed.

Lemma respond_exact w st :
  respond py w st =
  (inr tt,
   set_messages
     (messages st ++ [outcome_turn py (respond_outcome py w st)])
     (respond_end py w st)).
Proof.
  unfold respond, respond_outcome, respond_end, try_except, append_message, modify.
  unfold bind at 1. unfold gets at 1. unfold bind at 1.
  destruct (keeps_get_analyst_response py w (messages st) st) as [K1 _].
  destruct (get_analyst_response py w (messages st) st)
    as [[e | [response error]] st1]; simpl in K1.
  - simpl. rewrite K1. reflexivity.
  - assert (D : messages (snd (display_response w response st1)) = messages st).
    { destruct (keeps_display_response w response st1) as [D1 _]. congruence. }
    destruct error as [err | ]; simpl; [ destruct (str_truthy err) | ].
    + simpl. rewrite K1. reflexivity.
    + unfold bind.
      destruct (display_response w response st1) as [[e | []] st2];
        simpl in *; rewrite D; reflexivity.
    + unfold bind.
      destruct (display_response w response st1) as [[e | []] st2];
        simpl in *; rewrite D; reflexivity.
Qed.

Lemma handle_input_exact w st :
  accepts w st = true ->
  handle_input py w st =
  (inr tt,
   set_messages
     (messages st ++ [user_turn (current_input w st);
                      outcome_turn py (round_outcome py w st)])
     (round_end py w st)).
Proof.
  intros Hacc. unfold handle_input, round_outcome, round_end.
  unfold bind at 1. unfold gets at 1. rewrite Hacc.
  unfold bind. rewrite accept_input_spec. simpl snd.
  rewrite respond_exact. simpl. rewrite <- app_assoc. reflexivity.
Qed.

(** The reply of the round and the state in which it is displayed, in terms
    of what the host answers. *)
Lemma round_outcome_exact w st :
  let q := round_query py w st in
  let st2 := log_call (AnalystCall q)
               (State (messages st ++ [user_turn (current_input w st)]) ""
                      (selected_semantic_model_path st) (calls st) (widgets st)) in
  round_outcome py w st =
  match reply_of py w q with
  | (response, error) =>
      if opt_truthy error
      then Failed (match error with Some err => err | None => "" end)
      else match fst (display_response w response st2) with
           | inl e => Crashed e
           | inr _ => Answered response
           end
  end.
Proof.
  cbv zeta. unfold round_outcome, respond_outcome, round_query.
  rewrite accept_input_spec. simpl snd.
  rewrite get_analyst_response_exact. cbv zeta. simpl messages.
  simpl selected_semantic_model_path.
  destruct (reply_of py w _) as [response [err | ]]; simpl.
  - destruct (str_truthy err); reflexivity.
  - reflexivity.
Qed.

Lemma round_end_exact w st :
  let q := round_query py w st in
  let st2 := log_call (AnalystCall q)
               (State (messages st ++ [user_turn (current_input w st)]) ""
                      (selected_semantic_model_path st) (calls st) (widgets st)) in
  round_end py w st =
  match reply_of py w q with
  | (response, error) =>
      if opt_truthy error then st2
      else snd (display_response w response st2)
  end.
Proof.
  cbv zeta. unfold round_end, respond_end, round_query.
  rewrite accept_input_spec. simpl snd.
  rewrite get_analyst_response_exact. cbv zeta. simpl messages.
  simpl selected_semantic_model_path.
  destruct (reply_of py w _) as [response error]. reflexivity.
Qed.

(** ** Queries of a round *)

Lemma only_executes_refl st : only_executes st st.
Proof. exists []. rewrite app_nil_r. auto. Qed.

Lemma only_executes_trans a b c :
  only_executes a b -> only_executes b c -> only_executes a c.
Proof.
  intros (t1 & E1 & F1) (t2 & E2 & F2). exists (t1 ++ t2).
  rewrite E2, E1, <- app_assoc, forallb_app, F1, F2. auto.
Qed.

Lemma only_executes_same st st' : calls st' = calls st -> only_executes st st'.
Proof. intros E. exists []. rewrite app_nil_r. auto. Qed.

Lemma execute_query_only_executes sql : respects only_executes (execute_query sql).
Proof. intros st. exists [ExecuteCall sql]. auto. Qed.

Lemma display_response_only_executes w response :
  respects only_executes (display_response w response).
Proof.
  unfold display_response, show_message, show_sql, show_suggestions.
  unfold suggestion_button.
  repeat first
    [ apply execute_query_only_executes
    | frame_step only_executes_refl only_executes_trans
    | intros ?; apply only_executes_same; reflexivity ].
Qed.

(** X1. An accepted input sends exactly one query to the analyst.  Its text
    is built from the transcript extended with the new user turn and from the
    stored path.  Whatever else the round sends is an Execute query. *)
Theorem round_sends_one_query (w : world) (st : state) :
  accepts w st = true ->
  exists st' tail,
    handle_input py w st = (inr tt, st') /\
    calls st' = calls st ++ AnalystCall (round_query py w st) :: tail /\
    forallb is_execute tail = true.
Proof.
  intros Hacc. rewrite (handle_input_exact w st Hacc).
  pose proof (round_end_exact w st) as E. cbv zeta in E.
  set (q := round_query py w st) in *.
  destruct (reply_of py w q) as [response error].
  destruct (opt_truthy error).
  - eexists _, []. split; [ reflexivity | ]. simpl. rewrite E. auto.
  - match type of E with
    | _ = snd (display_response w response ?s) =>
        destruct (display_response_only_executes w response s) as (tail & T & F)
    end.
    eexists _, tail. split; [ reflexivity | ]. simpl. rewrite E, T. simpl.
    rewrite <- app_assoc. auto.
Qed.

(** ** Replies that are not shown as replies *)

Lemma display_scalar w v st :
  is_scalar v = true ->
  display_response w v st = (inl (TypeError OpIn v), st).
Proof. destruct v; try discriminate; reflexivity. Qed.

(** X2. When the reply decodes to [None], a bool or a number, the test
    ["message" in response] raises before anything is drawn: the round
    records the text of that type error behind "Unexpected error: " as the
    assistant turn, and creates no widget. *)
Theorem scalar_reply_is_unexpected_error (w : world) (st : state) r rest v :
  accepts w st = true ->
  collected (sql_collect w (round_query py w st)) = inr (r :: rest) ->
  json_loads py (RESPONSE r) = inr v ->
  is_scalar v = true ->
  exists st',
    handle_input py w st = (inr tt, st') /\
    messages st' =
      messages st ++
      [user_turn (current_input w st);
       assistant_turn (VStr ("Unexpected error: " ++ type_error_text py OpIn v))] /\
    widgets st' = widgets st.
Proof.
  intros Hacc Hrows Hloads Hv.
  rewrite (handle_input_exact w st Hacc).
  pose proof (round_outcome_exact w st) as O.
  pose proof (round_end_exact w st) as E. cbv zeta in O, E.
  unfold reply_of in O, E. rewrite Hrows, Hloads in O, E. simpl in O, E.
  rewrite display_scalar in O, E by exact Hv. simpl in O, E.
  eexists. split; [ reflexivity | ]. rewrite O, E. auto.
Qed.

(** X3. When the query returns no row, the round records
    "Error: No response received from Cortex Analyst" as the assistant turn;
    one query was sent and no widget was created. *)
Theorem no_rows_is_error_turn (w : world) (st : state) :
  accepts w st = true ->
  collected (sql_collect w (round_query py w st)) = inr [] ->
  exists st',
    handle_input py w st = (inr tt, st') /\
    messages st' =
      messages st ++
      [user_turn (current_input w st);
       assistant_turn (VStr "Error: No response received from Cortex Analyst")] /\
    calls st' = calls st ++ [AnalystCall (round_query py w st)] /\
    widgets st' = widgets st.
Proof.
  intros Hacc Hrows.
  rewrite (handle_input_exact w st Hacc).
  pose proof (round_outcome_exact w st) as O.
  pose proof (round_end_exact w st) as E. cbv zeta in O, E.
  unfold reply_of in O, E. rewrite Hrows in O, E. simpl in O, E.
  eexists. split; [ reflexivity | ]. rewrite O, E. auto.
Qed.

(** ** What display_response leaves alone *)

(** X4. Whether it returns or raises, [display_response] leaves the
    transcript and the stored path as they are and sends nothing to the
    analyst. *)
Theorem display_response_frame (w : world) (response : value) (st : state) :
  messages (snd (display_response w response st)) = messages st /\
  selected_semantic_model_path (snd (display_response w response st))
    = selected_semantic_model_path st /\
  analyst_calls (calls (snd (display_response w response st)))
    = analyst_calls (calls st).
Proof.
  destruct (keeps_display_response w response st) as [H1 H2].
  pose proof (display_response_same_calls w response st) as H3.
  auto.
Qed.

Lemma same_calls_refl st : same_calls st st.
Proof. reflexivity. Qed.

Lemma same_calls_trans a b c : same_calls a b -> same_calls b c -> same_calls a c.
Proof. unfold same_calls. congruence. Qed.

Lemma same_input_refl st : same_input st st.
Proof. reflexivity. Qed.

Lemma same_input_trans a b c : same_input a b -> same_input b c -> same_input a c.
Proof. unfold same_input. congruence. Qed.

Ltac same_calls_step :=
  first [ frame_step same_calls_refl same_calls_trans
        | intros ?; reflexivity ].

Ltac same_input_step :=
  first [ frame_step same_input_refl same_input_trans
        | intros ?; reflexivity ].

Lemma show_sql_same_calls w response :
  execute_not_pressed w -> respects same_calls (show_sql w response).
Proof.
  intros H st. unfold show_sql, bind, lift, same_calls.
  destruct (key_truthy "sql" response) as [e | []]; try reflexivity.
  destruct (py_subscript response "sql") as [e | sql]; try reflexivity.
  unfold button.
  destruct (st_button w (widgets st) BtnExecute) as [e | []] eqn:E;
    try reflexivity.
  destruct (H _ E).
Qed.

Lemma display_response_same_calls_unpressed w response :
  execute_not_pressed w -> respects same_calls (display_response w response).
Proof.
  intros H. unfold display_response.
  apply (respects_bind _ same_calls_trans);
    [ unfold show_message; repeat same_calls_step | intros _ ].
  apply (respects_bind _ same_calls_trans);
    [ apply show_sql_same_calls; exact H | intros _ ].
  unfold show_suggestions, suggestion_button. repeat same_calls_step.
Qed.

Lemma page_same_calls w :
  execute_not_pressed w -> respects same_calls (page w).
Proof.
  intros H. unfold page, sidebar, display_history, display_message.
  repeat first
    [ apply display_response_same_calls_unpressed; exact H
    | same_calls_step ].
Qed.

Lemma clear_button_same_calls w : respects same_calls (clear_button w).
Proof. unfold clear_button. repeat same_calls_step. Qed.

(** A run is the page, then the input block, then the Clear button; it stops
    at the page when the page raises. *)
Lemma script_run_split w st :
  script_run py w st =
  match page w st with
  | (inl e, stp) => (inl e, stp)
  | (inr _, stp) => clear_button w (snd (handle_input py w stp))
  end.
Proof.
  unfold script_run, page, bind, modify.
  destruct (sidebar w (begin_run st)) as [[e | []] st1]; [ reflexivity | ].
  destruct (display_history w st1) as [[e | []] st2]; [ reflexivity | ].
  destruct (handle_input_cases py w st2) as (st3 & R & _). rewrite R.
  reflexivity.
Qed.

Lemma keeps_page w : keeps (page w).
Proof.
  unfold page, keeps.
  apply (respects_bind _ same_session_trans);
    [ intros ?; split; reflexivity | intros _ ].
  apply (respects_bind _ same_session_trans);
    [ apply keeps_sidebar | intros _; apply keeps_display_history ].
Qed.

Lemma round_end_calls_unpressed w st :
  execute_not_pressed w ->
  calls (round_end py w st) = calls st ++ [AnalystCall (round_query py w st)].
Proof.
  intros H. pose proof (round_end_exact w st) as E. cbv zeta in E. rewrite E.
  destruct (reply_of py w _) as [response error].
  destruct (opt_truthy error); [ reflexivity | ].
  rewrite (display_response_same_calls_unpressed w response H). reflexivity.
Qed.

(** X5. The generated SQL is run only on request.  In a run where the host
    does not report the Execute button pressed, the only query that can be
    sent is the analyst query of the input handled in that run. *)
Theorem run_queries_without_execute (w : world) (st : state) :
  execute_not_pressed w ->
  exists r st',
    script_run py w st = (r, st') /\
    (calls st' = calls st \/
     exists input,
       calls st' =
         calls st ++
         [AnalystCall (sql_query py (messages st ++ [user_turn input])
                                 (selected_semantic_model_path st))]).
Proof.
  intros H. rewrite script_run_split.
  pose proof (page_same_calls w H st) as Pc.
  destruct (keeps_page w st) as [Pm Pp].
  destruct (page w st) as [[e | []] stp]; unfold same_calls in Pc; simpl in *.
  - exists (inl e), stp. split; [ reflexivity | left; exact Pc ].
  - destruct (accepts w stp) eqn:Hacc.
    + rewrite (handle_input_exact w stp Hacc). simpl snd.
      set (st3 := set_messages _ _).
      pose proof (clear_button_same_calls w st3) as Cc. unfold same_calls in Cc.
      destruct (clear_button w st3) as [r st4]. simpl in Cc.
      exists r, st4. split; [ reflexivity | ]. right.
      exists (current_input w stp).
      rewrite Cc. subst st3. simpl.
      rewrite (round_end_calls_unpressed w stp H). unfold round_query.
      rewrite Pc, Pm, Pp. reflexivity.
    + rewrite (handle_input_skips py w stp Hacc). simpl snd.
      pose proof (clear_button_same_calls w stp) as Cc. unfold same_calls in Cc.
      destruct (clear_button w stp) as [r st4]. simpl in Cc.
      exists r, st4. split; [ reflexivity | ]. left. congruence.
Qed.

(** ** A queued question is asked once *)

Lemma display_response_same_input w response :
  no_suggestion_pressed w -> respects same_input (display_response w response).
Proof.
  intros H. unfold display_response, show_message, show_sql, show_suggestions.
  unfold execute_query.
  repeat first
    [ match goal with
      | |- respects _ (suggestion_button _ _) =>
          let st := fresh "st" in
          intros st; unfold suggestion_button, bind, button, same_input;
          match goal with
          | |- context [match ?v with VStr _ => _ | _ => _ end] => destruct v
          end; try reflexivity;
          match goal with
          | |- context [st_button ?w ?l ?wd] =>
              let E := fresh "E" in
              destruct (st_button w l wd) as [? | []] eqn:E;
              try reflexivity; destruct (H _ _ E)
          end
      end
    | same_input_step ].
Qed.

(** X6. An input is handled once.  After an accepted round in which no
    suggestion button is reported pressed, the queue is empty, and a later
    pass through the input block without new input changes nothing. *)
Theorem input_handled_once (w w' : world) (st : state) :
  accepts w st = true ->
  no_suggestion_pressed w ->
  opt_truthy (chat_input w') = false ->
  let st' := snd (handle_input py w st) in
  user_input st' = "" /\
  handle_input py w' st' = (inr tt, st').
Proof.
  intros Hacc Hno Hchat. cbv zeta.
  assert (Hq : user_input (snd (handle_input py w st)) = "").
  { rewrite (handle_input_exact w st Hacc). simpl.
    pose proof (round_end_exact w st) as E. cbv zeta in E. rewrite E.
    destruct (reply_of py w _) as [response error].
    destruct (opt_truthy error); [ reflexivity | ].
    rewrite (display_response_same_input w response Hno). reflexivity. }
  split; [ exact Hq | ].
  apply handle_input_skips. unfold accepts. rewrite Hchat, Hq. reflexivity.
Qed.

(** ** The buttons of a reply *)

Lemma show_message_dict d st : show_message (VDict d) st = (inr tt, st).
Proof.
  unfold show_message, bind, lift. simpl.
  destruct (dict_get "message" d); reflexivity.
Qed.

Lemma key_truthy_dict key d :
  key_truthy key (VDict d) = inr (negb (field_empty key d)).
Proof.
  unfold key_truthy, field_empty. simpl.
  destruct (dict_get key d) as [v | ]; [ | reflexivity ].
  rewrite negb_involutive. reflexivity.
Qed.

Lemma show_sql_dict w d st :
  answers w ->
  exists st',
    show_sql w (VDict d) st = (inr tt, st') /\
    widgets st' =
      widgets st ++ (if field_empty "sql" d then [] else [BtnExecute]).
Proof.
  intros Hans. unfold show_sql, bind, lift. rewrite key_truthy_dict.
  unfold field_empty. simpl.
  destruct (dict_get "sql" d) as [v | ]; simpl.
  - destruct (truthy v); simpl.
    + unfold button. destruct (Hans (widgets st) BtnExecute) as [b ->].
      destruct b; eexists; split; reflexivity.
    + exists st. rewrite app_nil_r. auto.
  - exists st. rewrite app_nil_r. auto.
Qed.

Lemma suggestion_buttons_drawn w :
  answers w ->
  forall items l st,
    texts items = Some l ->
    exists st',
      for_each items (suggestion_button w) st = (inr tt, st') /\
      widgets st' = widgets st ++ map BtnSuggestion l.
Proof.
  intros Hans. induction items as [| v items IH]; intros l st Ht.
  - injection Ht as <-. exists st. simpl. rewrite app_nil_r. auto.
  - simpl in Ht. destruct v; try discriminate.
    destruct (texts items) as [l' | ] eqn:Et; [ | discriminate ].
    injection Ht as <-.
    simpl. unfold bind at 1. unfold suggestion_button at 1.
    unfold bind at 1. unfold button.
    destruct (Hans (widgets st) (BtnSuggestion s)) as [b ->].
    destruct b.
    + destruct (IH l' (set_user_input s (log_widget (BtnSuggestion s) st)) eq_refl)
        as (st' & R & W).
      exists st'. split; [ exact R | ]. rewrite W. simpl.
      rewrite <- app_assoc. reflexivity.
    + destruct (IH l' (log_widget (BtnSuggestion s) st) eq_refl)
        as (st' & R & W).
      exists st'. split; [ exact R | ]. rewrite W. simpl.
      rewrite <- app_assoc. reflexivity.
Qed.


Lemma show_suggestions_dict w d l st :
  answers w ->
  suggestion_texts d = Some l ->
  exists st',
    show_suggestions w (VDict d) st = (inr tt, st') /\
    widgets st' = widgets st ++ map BtnSuggestion l.
Proof.
  intros Hans. unfold suggestion_texts, show_suggestions, bind, lift.
  rewrite key_truthy_dict. unfold field_empty. simpl.
  destruct (dict_get "suggestions" d) as [v | ]; simpl.
  - destruct (truthy v); simpl.
    + destruct (py_iter v) as [e | items]; [ discriminate | ].
      intros Ht. apply (suggestion_buttons_drawn w Hans items l st Ht).
    + intros [= <-]. exists st. simpl. rewrite app_nil_r. auto.
  - intros [= <-]. exists st. simpl. rewrite app_nil_r. auto.
Qed.


Lemma display_returns w d l st :
  answers w ->
  suggestion_texts d = Some l ->
  exists st',
    display_response w (VDict d) st = (inr tt, st') /\
    widgets st' =
      widgets st ++ (if field_empty "sql" d then [] else [BtnExecute])
                 ++ map BtnSuggestion l.
Proof.
  intros Hans Ht. unfold display_response.
  unfold bind at 1. rewrite show_message_dict.
  destruct (show_sql_dict w d st Hans) as (st1 & R1 & W1).
  unfold bind at 1. rewrite R1.
  destruct (show_suggestions_dict w d l st1 Hans Ht) as (st2 & R2 & W2).
  exists st2. split; [ exact R2 | ]. rewrite W2, W1, <- app_assoc. reflexivity.
Qed.



(** X8. When no button raises, a reply that decodes to an object whose
    suggestions are strings is recorded as it is: the assistant turn of the
    round holds that object. *)
Theorem well_formed_reply_is_recorded (w : world) (st : state) r rest d l :
  accepts w st = true ->
  answers w ->
  collected (sql_collect w (round_query py w st)) = inr (r :: rest) ->
  json_loads py (RESPONSE r) = inr (VDict d) ->
  suggestion_texts d = Some l ->
  exists st',
    handle_input py w st = (inr tt, st') /\
    messages st' =
      messages st ++ [user_turn (current_input w st); assistant_turn (VDict d)].
Proof.
  intros Hacc Hans Hrows Hloads Ht.
  rewrite (handle_input_exact w st Hacc).
  pose proof (round_outcome_exact w st) as O. cbv zeta in O.
  unfold reply_of in O. rewrite Hrows, Hloads in O. simpl in O.
  match type of O with
  | context [display_response w (VDict d) ?s] =>
      destruct (display_returns w d l s Hans Ht) as (st2 & R & _)
  end.
  rewrite R in O. simpl in O.
  eexists. split; [ reflexivity | ]. rewrite O. reflexivity.
Qed.

(** ** Runs that do not abort *)

Lemma for_each_returns {A} (body : A -> M unit) (xs : list A) :
  (forall x, In x xs -> forall st, exists st', body x st = (inr tt, st')) ->
  forall st, exists st', for_each xs body st = (inr tt, st').
Proof.
  induction xs as [| x xs IH]; intros Hb st.
  - exists st. reflexivity.
  - destruct (Hb x (or_introl eq_refl) st) as (st1 & R1).
    destruct (IH (fun y Hy => Hb y (or_intror Hy)) st1) as (st2 & R2).
    exists st2. simpl. unfold bind. rewrite R1. exact R2.
Qed.

Lemma sidebar_returns w st :
  answers w -> exists st', sidebar w st = (inr tt, st').
Proof.
  intros Hans. unfold sidebar. apply for_each_returns.
  intros q _ st0. unfold bind, button.
  destruct (Hans (widgets st0) (BtnSample q)) as [b ->].
  destruct b; eexists; reflexivity.
Qed.

Lemma display_message_returns w t st :
  answers w ->
  displayable t = true ->
  exists st', display_message w t st = (inr tt, st').
Proof.
  intros Hans. unfold displayable, display_message.
  destruct (String.eqb (role t) "user"); simpl; [ eexists; reflexivity | ].
  destruct (content t); simpl; try (eexists; reflexivity).
  destruct (suggestion_texts d) as [l | ] eqn:Et; [ | discriminate ].
  intros _. destruct (display_returns w d l st Hans Et) as (st' & R & _).
  eauto.
Qed.

Lemma page_returns w st :
  answers w ->
  forallb displayable (messages st) = true ->
  exists stp, page w st = (inr tt, stp).
Proof.
  intros Hans Hall. unfold page.
  unfold bind at 1. unfold modify at 1. unfold bind at 1.
  destruct (keeps_sidebar w (begin_run st)) as [Ks _].
  destruct (sidebar_returns w (begin_run st) Hans) as (st1 & R1).
  rewrite R1 in *. simpl in Ks.
  unfold display_history. unfold bind at 1. unfold gets at 1.
  apply for_each_returns. intros t Hin st0.
  apply display_message_returns; [ exact Hans | ].
  rewrite Ks in Hin. simpl in Hin.
  rewrite forallb_forall in Hall. apply Hall. exact Hin.
Qed.

(** X9. When no button raises and every reply of the transcript has string
    suggestions, the page is drawn without exception and the run gets to the
    input block. *)
Theorem displayable_transcript_reaches_input (w : world) (st : state) :
  answers w ->
  forallb displayable (messages st) = true ->
  reaches_input w st = true.
Proof.
  intros Hans Hall. unfold reaches_input.
  change ((modify begin_run ;;; sidebar w ;;; display_history w) st)
    with (page w st).
  destruct (page_returns w st Hans Hall) as (stp & ->). reflexivity.
Qed.





(** ** The transcript across runs *)

Lemma user_assistant_snoc n :
  user_assistant n ++ ["user"; "assistant"] = user_assistant (S n).
Proof. induction n as [| n IH]; simpl; [ reflexivity | rewrite IH; reflexivity ]. Qed.

Lemma run_keeps_alternating w st :
  alternating (messages st) ->
  alternating (messages (snd (script_run py w st))).
Proof.
  intros (n & Hn & Hl).
  destruct (script_run_transcript py w st)
    as (r & st' & -> & [Hm | [Hm | (u & a & Hm & Hu & Ha)]]); simpl; rewrite Hm.
  - exists n. auto.
  - exists 0. auto.
  - exists (S n). split.
    + rewrite map_app, Hn. simpl. rewrite Hu, Ha. apply user_assistant_snoc.
    + rewrite length_app, Hl. simpl. lia.
Qed.

(** X11. Across the runs of a session, whatever the host does (queries that
    fail, buttons that raise, runs that abort, transcripts cleared), the
    transcript keeps alternating user and assistant turns: it never holds a
    user turn without its assistant turn, and its length stays even. *)
Theorem session_alternates (ws : list world) (st : state) :
  alternating (messages st) ->
  alternating (messages (session py ws st)).
Proof.
  revert st. induction ws as [| w ws IH]; intros st Halt; simpl.
  - exact Halt.
  - apply IH, run_keeps_alternating, Halt.
Qed.

Lemma clear_button_unpressed w st :
  clear_not_pressed w -> messages (snd (clear_button w st)) = messages st.
Proof.
  intros H. unfold clear_button, bind, gets, button.
  destruct (messages st) as [| t ms] eqn:E; [ exact E | ].
  destruct (st_button w (widgets st) BtnClear) as [e | []] eqn:B; simpl;
    try exact E.
  destruct (H _ B).
Qed.

Lemma run_appends w st :
  clear_not_pressed w ->
  exists suffix, messages (snd (script_run py w st)) = messages st ++ suffix.
Proof.
  intros H. rewrite script_run_split.
  destruct (keeps_page w st) as [Pm _].
  destruct (page w st) as [[e | []] stp]; simpl in *.
  - exists []. rewrite app_nil_r. exact Pm.
  - rewrite (clear_button_unpressed _ _ H).
    destruct (handle_input_cases py w stp) as (st3 & R & [Hm | (u & a & Hm & _)]);
      rewrite R; simpl; rewrite Hm, Pm.
    + exists []. rewrite app_nil_r. reflexivity.
    + exists [u; a]. reflexivity.
Qed.

(** X12. The transcript is append-only: across runs in which the Clear
    button is not reported pressed, the turns already there stay, in the
    same order, and new turns are added at the end. *)
Theorem transcript_append_only (ws : list world) (st : state) :
  Forall clear_not_pressed ws ->
  exists suffix, messages (session py ws st) = messages st ++ suffix.
Proof.
  intros Hws. revert st.
  induction Hws as [| w ws H Hws IH]; intros st; simpl.
  - exists []. rewrite app_nil_r. reflexivity.
  - destruct (run_appends w st H) as (s1 & E1).
    destruct (IH (snd (script_run py w st))) as (s2 & E2).
    exists (s1 ++ s2). rewrite E2, E1, app_assoc. reflexivity.
Qed.

(** ** One path for the whole session *)

Lemma queries_with_refl p st : queries_with py p st st.
Proof. exists []. rewrite app_nil_r. auto. Qed.

Lemma queries_with_trans p a b c :
  queries_with py p a b -> queries_with py p b c -> queries_with py p a c.
Proof.
  intros (n1 & E1 & F1) (n2 & E2 & F2). exists (n1 ++ n2).
  rewrite E2, E1, <- app_assoc. split; [ reflexivity | ].
  apply Forall_app. auto.
Qed.

Lemma executes_use_path p tail :
  forallb is_execute tail = true -> Forall (uses_path py p) tail.
Proof.
  intros H. apply Forall_forall. intros c Hin.
  rewrite forallb_forall in H. specialize (H c Hin).
  destruct c; [ discriminate | exact I ].
Qed.

Lemma only_executes_queries p st st' :
  only_executes st st' -> queries_with py p st st'.
Proof.
  intros (tail & E & F). exists tail. split; [ exact E | ].
  apply executes_use_path, F.
Qed.

Lemma page_only_executes w : respects only_executes (page w).
Proof.
  unfold page, sidebar, display_history, display_message.
  repeat first
    [ apply display_response_only_executes
    | frame_step only_executes_refl only_executes_trans
    | intros ?; apply only_executes_same; reflexivity ].
Qed.

Lemma round_end_calls w st :
  exists tail,
    calls (round_end py w st)
      = calls st ++ AnalystCall (round_query py w st) :: tail /\
    forallb is_execute tail = true.
Proof.
  pose proof (round_end_exact w st) as E. cbv zeta in E. rewrite E.
  destruct (reply_of py w _) as [response error].
  destruct (opt_truthy error).
  - exists []. auto.
  - match goal with
    | |- context [display_response w response ?s] =>
        destruct (display_response_only_executes w response s) as (tail & T & F)
    end.
    exists tail. rewrite T. simpl. rewrite <- app_assoc. auto.
Qed.

Lemma handle_input_path w st :
  selected_semantic_model_path (snd (handle_input py w st))
    = selected_semantic_model_path st.
Proof.
  destruct (accepts w st) eqn:Hacc.
  - destruct (handle_input_spec py w st Hacc) as (st' & R & _ & Hp).
    rewrite R. exact Hp.
  - rewrite (handle_input_skips py w st Hacc). reflexivity.
Qed.

Lemma handle_input_queries w st :
  queries_with py (selected_semantic_model_path st) st (snd (handle_input py w st)).
Proof.
  destruct (accepts w st) eqn:Hacc.
  - rewrite (handle_input_exact w st Hacc). simpl snd.
    destruct (round_end_calls w st) as (tail & T & F).
    exists (AnalystCall (round_query py w st) :: tail). simpl. split; [ exact T | ].
    constructor; [ | apply executes_use_path, F ].
    simpl. eexists. unfold round_query. reflexivity.
  - rewrite (handle_input_skips py w st Hacc). apply queries_with_refl.
Qed.

Lemma clear_button_path w st :
  selected_semantic_model_path (snd (clear_button w st))
    = selected_semantic_model_path st.
Proof.
  unfold clear_button, bind, gets, button.
  destruct (messages st); [ reflexivity | ].
  destruct (st_button w (widgets st) BtnClear) as [e | []]; reflexivity.
Qed.

Lemma run_uses_path w st :
  selected_semantic_model_path (snd (script_run py w st))
    = selected_semantic_model_path st /\
  queries_with py (selected_semantic_model_path st) st (snd (script_run py w st)).
Proof.
  rewrite script_run_split.
  destruct (keeps_page w st) as [_ Pp].
  pose proof (page_only_executes w st) as Pq.
  apply (only_executes_queries (selected_semantic_model_path st)) in Pq.
  destruct (page w st) as [[e | []] stp]; simpl in *; [ auto | ].
  pose proof (handle_input_path w stp) as Hp.
  pose proof (handle_input_queries w stp) as Hq. rewrite Pp in Hq.
  pose proof (clear_button_path w (snd (handle_input py w stp))) as Cp.
  pose proof (clear_button_same_calls w (snd (handle_input py w stp))) as Cc.
  split; [ congruence | ].
  apply (queries_with_trans _ _ _ _ Pq).
  destruct Hq as (new & E & F). exists new. split; [ | exact F ].
  unfold same_calls in Cc. congruence.
Qed.

(** X13. No run changes the stored semantic-model path, and every query a
    session sends to the analyst is built around the path the session had at
    its start (the other queries are Execute queries). *)
Theorem session_uses_one_path (ws : list world) (st : state) :
  selected_semantic_model_path (session py ws st)
    = selected_semantic_model_path st /\
  queries_with py (selected_semantic_model_path st) st (session py ws st).
Proof.
  revert st. induction ws as [| w ws IH]; intros st; simpl.
  - split; [ reflexivity | apply queries_with_refl ].
  - destruct (run_uses_path w st) as [Hp Hq].
    destruct (IH (snd (script_run py w st))) as [Hp' Hq'].
    rewrite Hp in Hp', Hq'. split; [ exact Hp' | ].
    exact (queries_with_trans _ _ _ _ Hq Hq').
Qed.

(** ** Pressing a sample question *)

Lemma sample_questions_truthy q :
  In q sample_questions -> str_truthy q = true.
Proof.
  unfold sample_questions. simpl.
  intros H. repeat (destruct H as [<- | H]; [ reflexivity | ]). destruct H.
Qed.

Lemma current_input_queued w st :
  opt_truthy (chat_input w) = false -> current_input w st = user_input st.
Proof.
  unfold current_input, opt_truthy.
  destruct (chat_input w) as [t | ]; [ | reflexivity ].
  intros ->. reflexivity.
Qed.

(** With Clear not pressed, the button leaves the transcript alone; the
    only exception the block can raise is the one of the button itself. *)
Lemma clear_button_not_pressed w st :
  clear_not_pressed w ->
  exists r st',
    clear_button w st = (r, st') /\
    messages st' = messages st /\
    (r = inr tt \/ exists e log, r = inl e /\ st_button w log BtnClear = inl e).
Proof.
  intros H. unfold clear_button, bind, gets, button.
  destruct (messages st) as [| t ms] eqn:E.
  - exists (inr tt), st. auto.
  - destruct (st_button w (widgets st) BtnClear) as [e | []] eqn:B.
    + do 2 eexists. split; [ reflexivity | ]. simpl. split; [ exact E | ].
      right. eauto.
    + destruct (H _ B).
    + do 2 eexists. split; [ reflexivity | ]. simpl. auto.
Qed.

(** A run whose page leaves the non-empty [s] queued, with nothing typed and
    Clear not pressed, appends the user turn [s] and one assistant turn. *)
Lemma run_with_queued w st s :
  opt_truthy (chat_input w) = false ->
  clear_not_pressed w ->
  str_truthy s = true ->
  (forall stp, page w st = (inr tt, stp) -> user_input stp = s) ->
  reaches_input w st = true ->
  exists r st' a,
    script_run py w st = (r, st') /\
    messages st' = messages st ++ [Turn "user" (VStr s); a] /\
    role a = "assistant" /\
    (r = inr tt \/ exists e log, r = inl e /\ st_button w log BtnClear = inl e).
Proof.
  intros Hchat Hclear Hs Hq Hreach.
  rewrite script_run_split.
  unfold reaches_input in Hreach.
  change ((modify begin_run ;;; sidebar w ;;; display_history w) st)
    with (page w st) in Hreach.
  destruct (keeps_page w st) as [Pm _].
  destruct (page w st) as [[e | []] stp]; [ discriminate | ].
  simpl in Pm. specialize (Hq stp eq_refl).
  assert (Hacc : accepts w stp = true).
  { unfold accepts. rewrite Hq, Hs. apply orb_true_r. }
  assert (Hcur : current_input w stp = s).
  { rewrite (current_input_queued w stp Hchat). exact Hq. }
  rewrite (handle_input_exact w stp Hacc). simpl snd.
  rewrite Hcur, Pm.
  match goal with
  | |- context [clear_button w ?s3] =>
      destruct (clear_button_not_pressed w s3 Hclear) as (r & st' & C & Hm & Hr)
  end.
  exists r, st', (outcome_turn py (round_outcome py w stp)).
  split; [ exact C | ]. split; [ exact Hm | ].
  split; [ apply role_outcome_turn | exact Hr ].
Qed.

Section SamplePressed.

Variable w : world.
Variable q : string.
Hypothesis Hsample : sample_pressed w q.

Lemma sample_button_queues question :
  respects (queues_only q)
    (clicked <- button w (BtnSample question) ;;
     if clicked then modify (set_user_input question) else ret tt).
Proof.
  intros st. unfold bind, button.
  destruct (st_button w (widgets st) (BtnSample question)) as [e | []] eqn:E;
    simpl; try (left; reflexivity).
  destruct Hsample as (_ & _ & Honly & _).
  rewrite (Honly _ _ E). right. reflexivity.
Qed.

Lemma sample_button_hit st st' :
  (clicked <- button w (BtnSample q) ;;
   if clicked then modify (set_user_input q) else ret tt) st = (inr tt, st') ->
  user_input st' = q.
Proof.
  unfold bind, button.
  destruct (st_button w (widgets st) (BtnSample q)) as [e | []] eqn:E; simpl.
  - discriminate.
  - intros [= <-]. reflexivity.
  - destruct Hsample as (_ & Hpressed & _). destruct (Hpressed _ E).
Qed.

Lemma sidebar_hit st st' :
  In q sample_questions ->
  sidebar w st = (inr tt, st') ->
  user_input st' = q.
Proof.
  intros Hin Hrun. unfold sidebar in Hrun.
  apply (for_each_hit q _ (fun x => x = q) sample_button_queues)
    with (xs := sample_questions) (st := st).
  - intros x st1 st2 ->. apply sample_button_hit.
  - exact Hrun.
  - eauto.
Qed.

Lemma display_history_same_input : respects same_input (display_history w).
Proof.
  destruct Hsample as (_ & _ & _ & Hno).
  unfold display_history, display_message.
  repeat first
    [ apply display_response_same_input; exact Hno
    | same_input_step ].
Qed.

(** X14. Take a run in which the user presses the button of one of the ten
    sample questions and delivers no other input (nothing typed, no other
    sample question, no suggestion, Clear not pressed), and in which the page
    is drawn as far as the input block.  The run appends exactly two turns:
    a user turn whose content is that question, and the assistant turn of
    the round, whatever happens inside the round (a button may raise there);
    it returns normally unless the Clear button itself raises. *)
Theorem sample_question_is_user_turn (st : state) :
  In q sample_questions ->
  reaches_input w st = true ->
  clear_not_pressed w ->
  exists r st' a,
    script_run py w st = (r, st') /\
    messages st' = messages st ++ [Turn "user" (VStr q); a] /\
    role a = "assistant" /\
    (r = inr tt \/ exists e log, r = inl e /\ st_button w log BtnClear = inl e).
Proof.
  intros Hin Hreach Hclear.
  apply run_with_queued; try assumption.
  - exact (proj1 Hsample).
  - exact (sample_questions_truthy q Hin).
  - intros stp. unfold page, bind, modify.
    destruct (sidebar w (begin_run st)) as [[e | []] st1] eqn:Es; [ discriminate | ].
    intros Hh. pose proof (display_history_same_input st1) as Hs.
    rewrite Hh in Hs. unfold same_input in Hs. simpl in Hs.
    rewrite Hs. exact (sidebar_hit _ _ Hin Es).
Qed.

End SamplePressed.

(** ** Pressing a suggestion *)

Section SuggestionPressed.

Variable w : world.
Variable s : string.
Hypothesis Hsuggestion : suggestion_pressed w s.

Lemma suggestion_button_queues v :
  respects (queues_only s) (suggestion_button w v).
Proof.
  intros st. destruct v; try (left; reflexivity).
  unfold suggestion_button, bind, button.
  destruct (st_button w (widgets st) (BtnSuggestion s0)) as [e | []] eqn:E;
    simpl; try (left; reflexivity).
  destruct Hsuggestion as (_ & _ & Honly).
  rewrite (Honly _ _ E). right. reflexivity.
Qed.

Lemma suggestion_button_hit st st' :
  suggestion_button w (VStr s) st = (inr tt, st') -> user_input st' = s.
Proof.
  unfold suggestion_button, bind, button.
  destruct (st_button w (widgets st) (BtnSuggestion s)) as [e | []] eqn:E; simpl.
  - discriminate.
  - intros [= <-]. reflexivity.
  - destruct Hsuggestion as (_ & Hpressed & _). destruct (Hpressed _ E).
Qed.

Lemma display_response_queues response :
  respects (queues_only s) (display_response w response).
Proof.
  unfold display_response, show_message, show_sql, show_suggestions.
  unfold execute_query.
  repeat first
    [ apply suggestion_button_queues
    | frame_step (queues_only_refl s) (queues_only_trans s)
    | intros ?; left; reflexivity ].
Qed.

Lemma display_message_queues t :
  respects (queues_only s) (display_message w t).
Proof.
  unfold display_message.
  repeat first
    [ apply display_response_queues
    | frame_step (queues_only_refl s) (queues_only_trans s)
    | intros ?; left; reflexivity ].
Qed.

Lemma show_suggestions_hit d l st st' :
  dict_get "suggestions" d = Some (VList l) ->
  In (VStr s) l ->
  show_suggestions w (VDict d) st = (inr tt, st') ->
  user_input st' = s.
Proof.
  intros Hget Hin.
  unfold show_suggestions, key_truthy, bind, lift. simpl. rewrite Hget.
  destruct l as [| x l]; [ destruct Hin | ]. simpl.
  intros Hrun.
  apply (for_each_hit s (suggestion_button w) (fun v => v = VStr s)
           suggestion_button_queues) with (xs := x :: l) (st := st).
  - intros v st1 st2 ->. apply suggestion_button_hit.
  - exact Hrun.
  - eauto.
Qed.

Lemma display_message_hit t d l st st' :
  role t <> "user" ->
  content t = VDict d ->
  dict_get "suggestions" d = Some (VList l) ->
  In (VStr s) l ->
  display_message w t st = (inr tt, st') ->
  user_input st' = s.
Proof.
  intros Hrole Hcontent Hget Hin.
  unfold display_message.
  apply String.eqb_neq in Hrole. rewrite Hrole, Hcontent. simpl.
  unfold display_response. intros Hrun.
  apply bind_returned in Hrun. destruct Hrun as (_ & st1 & _ & Hrun).
  apply bind_returned in Hrun. destruct Hrun as (_ & st2 & _ & Hrun).
  exact (show_suggestions_hit d l st2 st' Hget Hin Hrun).
Qed.

Lemma display_history_hit st st' :
  offered s st ->
  display_history w st = (inr tt, st') ->
  user_input st' = s.
Proof.
  intros (t & d & l & Hin & Hrole & Hcontent & Hget & Hs).
  unfold display_history. unfold bind at 1. unfold gets at 1.
  intros Hrun.
  apply (for_each_hit s (display_message w)
           (fun t => exists d l,
                role t <> "user" /\ content t = VDict d /\
                dict_get "suggestions" d = Some (VList l) /\ In (VStr s) l)
           display_message_queues) with (xs := messages st) (st := st).
  - intros t' st1 st2 (d' & l' & H1 & H2 & H3 & H4).
    apply (display_message_hit t' d' l'); assumption.
  - exact Hrun.
  - exists t. split; [ exact Hin | ]. exists d, l. auto.
Qed.

(** C5, as the code has it. Take a run in which the user presses the button
    of a suggestion [s] carried by an assistant turn of the transcript and
    delivers no other input (nothing typed, no other suggestion, Clear not
    pressed), and in which the page is drawn as far as line 233.  If [s] is
    not the empty string, the run appends exactly two turns: a user turn
    whose content is [s], character for character, and the assistant turn of
    that round, whatever happens inside the round (a button may raise
    there); it returns normally unless the Clear button itself raises. *)
Theorem selected_suggestion_is_user_turn (st : state) :
  offered s st ->
  reaches_input w st = true ->
  clear_not_pressed w ->
  str_truthy s = true ->
  exists r st' a,
    script_run py w st = (r, st') /\
    messages st' = messages st ++ [Turn "user" (VStr s); a] /\
    role a = "assistant" /\
    (r = inr tt \/ exists e log, r = inl e /\ st_button w log BtnClear = inl e).
Proof.
  intros Hoff Hreach Hclear Hs.
  apply run_with_queued; try assumption.
  - exact (proj1 Hsuggestion).
  - intros stp. unfold page, bind, modify.
    destruct (keeps_sidebar w (begin_run st)) as [Ks _].
    destruct (sidebar w (begin_run st)) as [[e | []] st1]; [ discriminate | ].
    simpl in Ks. intros Hh.
    apply (display_history_hit st1 stp); [ | exact Hh ].
    unfold offered in *. rewrite Ks. exact Hoff.
Qed.

End SuggestionPressed.

(** ** Replies with nothing in them *)

(** C4, as the code has it. Take an accepted input whose query is answered
    with a row, and let the reply decode to an object whose message,
    generated query and suggestions are all absent or empty.  Then
    [get_analyst_response] returns that object with error [None]; displaying
    it raises nothing and changes nothing; and the round returns normally,
    having appended the user turn and an assistant turn whose content is that
    object. *)
Theorem empty_reply_is_answered (w : world) (st : state) r rest d :
  accepts w st = true ->
  collected (sql_collect w (round_query py w st)) = inr (r :: rest) ->
  json_loads py (RESPONSE r) = inr (VDict d) ->
  empty_reply d = true ->
  fst (get_analyst_response py w
         (messages st ++ [Turn "user" (VStr (current_input w st))]) st)
    = inr (VDict d, None) /\
  (forall st0, display_response w (VDict d) st0 = (inr tt, st0)) /\
  exists st',
    handle_input py w st = (inr tt, st') /\
    messages st' =
      messages st ++ [Turn "user" (VStr (current_input w st));
                      Turn "assistant" (VDict d)].
Proof.
  intros Hacc Hrows Hloads Hempty.
  split; [ | split ].
  - rewrite get_analyst_response_exact. cbv zeta. simpl.
    unfold round_query, user_turn in Hrows.
    unfold reply_of. rewrite Hrows, Hloads. reflexivity.
  - intros st0. apply display_empty_reply, Hempty.
  - rewrite (handle_input_exact w st Hacc).
    pose proof (round_outcome_exact w st) as O. cbv zeta in O.
    unfold reply_of in O. rewrite Hrows, Hloads in O. simpl in O.
    rewrite display_empty_reply in O by exact Hempty. simpl in O.
    eexists. split; [ reflexivity | ]. rewrite O. reflexivity.
Qed.


(** ** Running the generated query *)

Lemma show_suggestions_same_calls w response :
  respects same_calls (show_suggestions w response).
Proof. unfold show_suggestions, suggestion_button. repeat same_calls_step. Qed.

(** X15. Pressing Execute under a reply runs the query of that reply: when
    the reply object carries a non-empty query and the host reports the
    Execute button pressed, displaying the reply sends exactly that query
    and nothing else.  When the reply has no query, or an empty one,
    displaying it sends nothing, whatever the host reports. *)
Theorem execute_runs_the_reply_sql (w : world) (d : list (string * value))
        (st : state) :
  (forall sql,
      dict_get "sql" d = Some sql ->
      truthy sql = true ->
      st_button w (widgets st) BtnExecute = inr true ->
      calls (snd (display_response w (VDict d) st))
        = calls st ++ [ExecuteCall sql]) /\
  (field_empty "sql" d = true ->
   calls (snd (display_response w (VDict d) st)) = calls st).
Proof.
  split.
  - intros sql Hget Htruthy Hpressed.
    unfold display_response. unfold bind at 1. rewrite show_message_dict.
    unfold bind at 1.
    unfold show_sql, bind, lift. rewrite key_truthy_dict.
    unfold field_empty. simpl. rewrite Hget, Htruthy. simpl.
    unfold button. rewrite Hpressed. unfold execute_query, modify.
    match goal with
    | |- context [show_suggestions w (VDict d) ?s] =>
        rewrite (show_suggestions_same_calls w (VDict d) s)
    end.
    reflexivity.
  - intros Hempty.
    unfold display_response. unfold bind at 1. rewrite show_message_dict.
    unfold bind at 1.
    unfold show_sql, bind, lift. rewrite key_truthy_dict, Hempty. simpl.
    apply (show_suggestions_same_calls w (VDict d) st).
Qed.

End Further.

(** * Examples *)

Lemma pressing_selects s rows : selects (pressing (is_suggestion s) rows) s.
Proof. split; reflexivity. Qed.

Lemma transcript_length_2N_witness :
  messages initial_state = [] /\
  all_accepted example_py two_steps initial_state = true /\
  exists st',
    loop example_py two_steps initial_state = (inr tt, st') /\
    length (messages st') = 2 * length two_steps /\
    map role (messages st') = user_assistant (length two_steps).
Proof.
  split; [ reflexivity | ]. split; [ reflexivity | ].
  apply (transcript_length_2N example_py two_steps initial_state); reflexivity.
Defined.

(** C2, as the claim states it, fails: with the empty path the query is sent
    (one call, not zero) and its reply comes back with no error at all. *)
Lemma empty_path_is_not_rejected :
  let run := get_analyst_response example_py
               (typing revenue_question 900 (one_row reply_ok))
               [user_turn revenue_question] empty_path_state in
  selected_semantic_model_path empty_path_state = "" /\
  fst run = inr (VDict [("message", VStr "ok")], None) /\
  analyst_calls (calls empty_path_state) = 0 /\
  analyst_calls (calls (snd run)) = 1.
Proof. repeat split. Qed.

Lemma empty_path_still_queries_witness :
  selected_semantic_model_path empty_path_state = "" /\
  exists reply st',
    get_analyst_response example_py
      (typing revenue_question 900 (one_row reply_ok))
      [user_turn revenue_question] empty_path_state = (inr reply, st') /\
    calls st' =
      calls empty_path_state ++
      [AnalystCall (sql_query example_py [user_turn revenue_question] "")] /\
    forall r rest v,
      collected (sql_collect (typing revenue_question 900 (one_row reply_ok))
                   (sql_query example_py [user_turn revenue_question] ""))
        = inr (r :: rest) ->
      json_loads example_py (RESPONSE r) = inr v ->
      reply = (v, None).
Proof.
  split; [ reflexivity | ].
  apply (empty_path_still_queries example_py
           (typing revenue_question 900 (one_row reply_ok))
           [user_turn revenue_question] empty_path_state).
  reflexivity.
Defined.

(** C3 at a call that takes 45 seconds: the duration is beyond [API_TIMEOUT],
    yet the reply is recorded as the assistant turn, after a single query. *)
Lemma slow_call_is_not_timed_out :
  let w := typing revenue_question 45000 (one_row reply_ok) in
  let q := sql_query example_py [user_turn revenue_question] default_semantic_model in
  (API_TIMEOUT < elapsed_ms (sql_collect w q))%Z /\
  handle_input example_py w initial_state =
  (inr tt,
   State [ user_turn revenue_question;
           assistant_turn (VDict [("message", VStr "ok")]) ]
         "" default_semantic_model [AnalystCall q] []).
Proof. split; reflexivity. Qed.

(** C4, as the claim states it, fails: the reply [{}] has none of the three
    fields, and it is returned as a success and recorded as a reply. *)
Lemma empty_reply_is_not_rejected :
  let w := typing revenue_question 900 (one_row "{}") in
  json_loads example_py (Some "{}") = inr (VDict []) /\
  empty_reply [] = true /\
  fst (get_analyst_response example_py w [user_turn revenue_question] initial_state)
    = inr (VDict [], None) /\
  messages (snd (handle_input example_py w initial_state))
    = [user_turn revenue_question; assistant_turn (VDict [])].
Proof. repeat split. Qed.

(** C5, as the claim states it, fails at the empty suggestion: pressing its
    button queues the empty string, line 233 does not accept it, and the run
    ends with the transcript it started with. *)
Lemma empty_suggestion_makes_no_turn :
  let w := pressing (is_suggestion "") (one_row reply_ok) in
  offered "" (suggesting "") /\
  selects w "" /\
  reaches_input w (suggesting "") = true /\
  fst (script_run example_py w (suggesting "")) = inr tt /\
  messages (snd (script_run example_py w (suggesting ""))) = messages (suggesting "").
Proof.
  cbv zeta. split.
  - exists (assistant_turn (VDict [("suggestions", VList [VStr ""])])),
      [("suggestions", VList [VStr ""])], [VStr ""].
    simpl. repeat split; auto. discriminate.
  - split; [ apply pressing_selects | ]. repeat split.
Qed.

Lemma clear_empties_transcript_witness :
  let w := pressing is_clear (one_row reply_ok) in
  st_button w (widgets (suggesting trends_question)) BtnClear = inr true /\
  exists st',
    clear_button w (suggesting trends_question) = (inr tt, st') /\
    messages st' = [] /\
    user_input st' = user_input (suggesting trends_question) /\
    selected_semantic_model_path st' =
      selected_semantic_model_path (suggesting trends_question).
Proof.
  cbv zeta. split; [ reflexivity | ].
  apply (clear_empties_transcript (pressing is_clear (one_row reply_ok))
           (suggesting trends_question)).
  reflexivity.
Defined.


Lemma typed_input_wins_witness :
  let w := typing revenue_question 900 (one_row reply_ok) in
  chat_input w = Some revenue_question /\
  str_truthy revenue_question = true /\
  str_truthy (user_input queued_state) = true /\
  user_input (snd (accept_input w queued_state)) = "" /\
  messages (snd (accept_input w queued_state))
    = messages queued_state ++ [user_turn revenue_question] /\
  exists st',
    handle_input example_py w queued_state = (inr tt, st') /\
    messages st' =
      messages queued_state ++
      [user_turn revenue_question;
       outcome_turn example_py (round_outcome example_py w queued_state)].
Proof.
  cbv zeta.
  destruct (typed_input_wins example_py
              (typing revenue_question 900 (one_row reply_ok)) queued_state)
    as [Hq Htyped].
  split; [ reflexivity | ]. split; [ reflexivity | ]. split; [ reflexivity | ].
  split; [ exact Hq | ].
  exact (Htyped revenue_question eq_refl eq_refl).
Defined.

(** C10 at a reply that is a JSON string.  [get_analyst_response] is
    annotated to return a [Dict], and the history loop tells replies from
    error text by [isinstance(content, dict)]; nothing checks what
    [json.loads] returned.  The reply ["hello"] gives a round that succeeds
    and an assistant turn that holds a plain string, like the turn of a
    failed round. *)
Lemma string_reply_looks_like_error :
  let w := typing revenue_question 900 (one_row (quoted "hello")) in
  json_loads example_py (Some (quoted "hello")) = inr (VStr "hello") /\
  round_outcome example_py w initial_state = Answered (VStr "hello") /\
  messages (snd (handle_input example_py w initial_state))
    = [user_turn revenue_question; assistant_turn (VStr "hello")] /\
  is_dict (content (assistant_turn (VStr "hello"))) = false /\
  is_str (content (assistant_turn (VStr "hello"))) = true.
Proof. repeat split. Qed.

Lemma content_type_tells_outcome_witness :
  let w := typing revenue_question 900 (one_row reply_ok) in
  accepts w initial_state = true /\
  (forall v, round_outcome example_py w initial_state = Answered v ->
             is_dict v = true) /\
  exists st' u a,
    handle_input example_py w initial_state = (inr tt, st') /\
    messages st' = messages initial_state ++ [u; a] /\
    role u = "user" /\ is_str (content u) = true /\
    role a = "assistant" /\
    is_dict (content a) = succeeded (round_outcome example_py w initial_state) /\
    is_str (content a) = negb (succeeded (round_outcome example_py w initial_state)) /\
    (forallb typed_turn (messages initial_state) = true ->
     forallb typed_turn (messages st') = true).
Proof.
  cbv zeta.
  assert (Hdict : forall v,
             round_outcome example_py
               (typing revenue_question 900 (one_row reply_ok)) initial_state
             = Answered v -> is_dict v = true).
  { intros v H. vm_compute in H. injection H as <-. reflexivity. }
  split; [ reflexivity | ]. split; [ exact Hdict | ].
  apply (content_type_tells_outcome example_py
           (typing revenue_question 900 (one_row reply_ok)) initial_state);
    [ reflexivity | exact Hdict ].
Defined.

(** * Examples for the further properties *)

Lemma typing_answers text ms rows : answers (typing text ms rows).
Proof. intros log wd. exists false. reflexivity. Qed.



Lemma two_runs_do_not_clear : Forall clear_not_pressed two_runs.
Proof. repeat constructor; intros log E; discriminate. Qed.

Lemma round_sends_one_query_witness :
  let w := typing revenue_question 900 (one_row reply_ok) in
  accepts w initial_state = true /\
  exists st' tail,
    handle_input example_py w initial_state = (inr tt, st') /\
    calls st' =
      calls initial_state ++
      AnalystCall (round_query example_py w initial_state) :: tail /\
    forallb is_execute tail = true.
Proof.
  cbv zeta. split; [ reflexivity | ].
  apply (round_sends_one_query example_py
           (typing revenue_question 900 (one_row reply_ok)) initial_state).
  reflexivity.
Defined.

Lemma scalar_reply_is_unexpected_error_witness :
  let w := typing revenue_question 900 (one_row "null") in
  accepts w initial_state = true /\
  collected (sql_collect w (round_query scalar_py w initial_state))
    = inr [Row (Some "null")] /\
  json_loads scalar_py (RESPONSE (Row (Some "null"))) = inr VNone /\
  is_scalar VNone = true /\
  exists st',
    handle_input scalar_py w initial_state = (inr tt, st') /\
    messages st' =
      messages initial_state ++
      [user_turn (current_input w initial_state);
       assistant_turn
         (VStr ("Unexpected error: " ++ type_error_text scalar_py OpIn VNone))] /\
    widgets st' = widgets initial_state.
Proof.
  cbv zeta.
  split; [ reflexivity | ]. split; [ reflexivity | ].
  split; [ reflexivity | ]. split; [ reflexivity | ].
  apply (scalar_reply_is_unexpected_error scalar_py
           (typing revenue_question 900 (one_row "null")) initial_state
           (Row (Some "null")) [] VNone); reflexivity.
Defined.

Lemma no_rows_is_error_turn_witness :
  let w := typing revenue_question 900 (inr []) in
  accepts w initial_state = true /\
  collected (sql_collect w (round_query example_py w initial_state)) = inr [] /\
  exists st',
    handle_input example_py w initial_state = (inr tt, st') /\
    messages st' =
      messages initial_state ++
      [user_turn (current_input w initial_state);
       assistant_turn (VStr "Error: No response received from Cortex Analyst")] /\
    calls st' =
      calls initial_state ++ [AnalystCall (round_query example_py w initial_state)] /\
    widgets st' = widgets initial_state.
Proof.
  cbv zeta. split; [ reflexivity | ]. split; [ reflexivity | ].
  apply (no_rows_is_error_turn example_py
           (typing revenue_question 900 (inr [])) initial_state); reflexivity.
Defined.

Lemma run_queries_without_execute_witness :
  let w := typing revenue_question 900 (one_row reply_ok) in
  execute_not_pressed w /\
  exists r st',
    script_run example_py w initial_state = (r, st') /\
    (calls st' = calls initial_state \/
     exists input,
       calls st' =
         calls initial_state ++
         [AnalystCall
            (sql_query example_py (messages initial_state ++ [user_turn input])
                       (selected_semantic_model_path initial_state))]).
Proof.
  cbv zeta.
  assert (H : execute_not_pressed (typing revenue_question 900 (one_row reply_ok))).
  { intros log E. discriminate. }
  split; [ exact H | ].
  apply (run_queries_without_execute example_py
           (typing revenue_question 900 (one_row reply_ok)) initial_state H).
Defined.

Lemma input_handled_once_witness :
  let w := typing revenue_question 900 (one_row reply_ok) in
  let w' := pressing (fun _ => false) (one_row reply_ok) in
  accepts w queued_state = true /\
  no_suggestion_pressed w /\
  opt_truthy (chat_input w') = false /\
  user_input (snd (handle_input example_py w queued_state)) = "" /\
  handle_input example_py w' (snd (handle_input example_py w queued_state))
    = (inr tt, snd (handle_input example_py w queued_state)).
Proof.
  cbv zeta.
  assert (H : no_suggestion_pressed (typing revenue_question 900 (one_row reply_ok))).
  { intros log s E. discriminate. }
  split; [ reflexivity | ]. split; [ exact H | ]. split; [ reflexivity | ].
  apply (input_handled_once example_py
           (typing revenue_question 900 (one_row reply_ok))
           (pressing (fun _ => false) (one_row reply_ok)) queued_state);
    [ reflexivity | exact H | reflexivity ].
Defined.


Lemma well_formed_reply_is_recorded_witness :
  let w := typing revenue_question 900 (one_row reply_suggesting) in
  let d := [("suggestions", VList [VStr trends_question])] in
  accepts w initial_state = true /\
  answers w /\
  collected (sql_collect w (round_query example_py w initial_state))
    = inr [Row (Some reply_suggesting)] /\
  json_loads example_py (RESPONSE (Row (Some reply_suggesting))) = inr (VDict d) /\
  suggestion_texts d = Some [trends_question] /\
  exists st',
    handle_input example_py w initial_state = (inr tt, st') /\
    messages st' =
      messages initial_state ++
      [user_turn (current_input w initial_state); assistant_turn (VDict d)].
Proof.
  cbv zeta.
  split; [ reflexivity | ]. split; [ apply typing_answers | ].
  split; [ reflexivity | ]. split; [ reflexivity | ]. split; [ reflexivity | ].
  apply (well_formed_reply_is_recorded example_py
           (typing revenue_question 900 (one_row reply_suggesting)) initial_state
           (Row (Some reply_suggesting)) []
           [("suggestions", VList [VStr trends_question])] [trends_question]);
    first [ reflexivity | apply typing_answers ].
Defined.

Lemma displayable_transcript_reaches_input_witness :
  let w := typing revenue_question 900 (one_row reply_ok) in
  answers w /\
  forallb displayable (messages (suggesting trends_question)) = true /\
  reaches_input w (suggesting trends_question) = true.
Proof.
  cbv zeta. split; [ apply typing_answers | ]. split; [ reflexivity | ].
  apply (displayable_transcript_reaches_input
           (typing revenue_question 900 (one_row reply_ok))
           (suggesting trends_question));
    [ apply typing_answers | reflexivity ].
Defined.


Lemma initial_alternating : alternating (messages initial_state).
Proof. exists 0. split; reflexivity. Qed.

Lemma session_alternates_witness :
  alternating (messages initial_state) /\
  alternating (messages (session example_py two_runs initial_state)).
Proof.
  split; [ apply initial_alternating | ].
  apply (session_alternates example_py two_runs initial_state initial_alternating).
Defined.

Lemma transcript_append_only_witness :
  Forall clear_not_pressed two_runs /\
  exists suffix,
    messages (session example_py two_runs (suggesting trends_question))
      = messages (suggesting trends_question) ++ suffix.
Proof.
  split; [ apply two_runs_do_not_clear | ].
  apply (transcript_append_only example_py two_runs (suggesting trends_question)
           two_runs_do_not_clear).
Defined.


Lemma execute_runs_the_reply_sql_witness :
  let w := pressing is_execute_button (one_row reply_ok) in
  let sql := VStr "SELECT SUM(revenue) FROM daily_revenue" in
  dict_get "sql" full_reply = Some sql /\
  truthy sql = true /\
  st_button w (widgets initial_state) BtnExecute = inr true /\
  calls (snd (display_response w (VDict full_reply) initial_state))
    = calls initial_state ++ [ExecuteCall sql].
Proof.
  cbv zeta.
  split; [ reflexivity | ]. split; [ reflexivity | ]. split; [ reflexivity | ].
  apply (proj1 (execute_runs_the_reply_sql
                  (pressing is_execute_button (one_row reply_ok))
                  full_reply initial_state));
    reflexivity.
Defined.

(** * Examples with a host that refuses duplicate keys *)

Lemma keyed_clear_not_pressed pressed rows :
  pressed BtnClear = false -> clear_not_pressed (keyed pressed rows).
Proof.
  intros H log. simpl. destruct (existsb _ log); [ discriminate | ].
  rewrite H. discriminate.
Qed.

Lemma keyed_suggestion_pressed s rows :
  suggestion_pressed (keyed (is_suggestion s) rows) s.
Proof.
  split; [ reflexivity | ]. split.
  - intros log. simpl. destruct (existsb _ log); [ discriminate | ].
    rewrite String.eqb_refl. discriminate.
  - intros log s'. simpl. destruct (existsb _ log); [ discriminate | ].
    intros [= E]. apply String.eqb_eq. exact E.
Qed.

Lemma keyed_sample_pressed q rows :
  sample_pressed (keyed (is_sample q) rows) q.
Proof.
  split; [ reflexivity | ]. split; [ | split ].
  - intros log. simpl. destruct (existsb _ log); [ discriminate | ].
    rewrite String.eqb_refl. discriminate.
  - intros log q'. simpl. destruct (existsb _ log); [ discriminate | ].
    intros [= E]. apply String.eqb_eq. exact E.
  - intros log s. simpl. destruct (existsb _ log); discriminate.
Qed.

Lemma answered_with_sql_offers s : offered s (answered_with_sql s).
Proof.
  exists (assistant_turn (VDict [ ("sql", VStr one_query);
                                  ("suggestions", VList [VStr s]) ])),
    [ ("sql", VStr one_query); ("suggestions", VList [VStr s]) ], [VStr s].
  simpl. repeat split; auto. discriminate.
Qed.

Lemma empty_reply_is_answered_witness :
  let w := typing revenue_question 900 (one_row "{}") in
  accepts w initial_state = true /\
  collected (sql_collect w (round_query example_py w initial_state))
    = inr [Row (Some "{}")] /\
  json_loads example_py (RESPONSE (Row (Some "{}"))) = inr (VDict []) /\
  empty_reply [] = true /\
  fst (get_analyst_response example_py w
         (messages initial_state
          ++ [Turn "user" (VStr (current_input w initial_state))])
         initial_state)
    = inr (VDict [], None) /\
  (forall st0, display_response w (VDict []) st0 = (inr tt, st0)) /\
  exists st',
    handle_input example_py w initial_state = (inr tt, st') /\
    messages st' =
      messages initial_state
      ++ [Turn "user" (VStr (current_input w initial_state));
          Turn "assistant" (VDict [])].
Proof.
  cbv zeta.
  split; [ reflexivity | ]. split; [ reflexivity | ].
  split; [ reflexivity | ]. split; [ reflexivity | ].
  apply (empty_reply_is_answered example_py
           (typing revenue_question 900 (one_row "{}")) initial_state
           (Row (Some "{}")) [] []); reflexivity.
Defined.

(** The suggestion of a reply that carries a query is pressed, and the new
    reply carries a query again: its Execute button has the key of the one
    already drawn, the host refuses it, and the round ends in an error turn.
    The user turn is the suggestion all the same. *)
Lemma selected_suggestion_is_user_turn_witness :
  let w := keyed (is_suggestion trends_question) (one_row reply_sql) in
  let st := answered_with_sql trends_question in
  suggestion_pressed w trends_question /\
  offered trends_question st /\
  reaches_input w st = true /\
  clear_not_pressed w /\
  str_truthy trends_question = true /\
  round_outcome sql_py w (snd (page w st)) = Crashed duplicate_key /\
  exists r st' a,
    script_run sql_py w st = (r, st') /\
    messages st' = messages st ++ [Turn "user" (VStr trends_question); a] /\
    role a = "assistant" /\
    (r = inr tt \/ exists e log, r = inl e /\ st_button w log BtnClear = inl e).
Proof.
  cbv zeta.
  split; [ apply keyed_suggestion_pressed | ].
  split; [ apply answered_with_sql_offers | ].
  split; [ reflexivity | ].
  split; [ apply keyed_clear_not_pressed; reflexivity | ].
  split; [ reflexivity | ]. split; [ reflexivity | ].
  apply (selected_suggestion_is_user_turn sql_py
           (keyed (is_suggestion trends_question) (one_row reply_sql))
           trends_question (keyed_suggestion_pressed _ _)
           (answered_with_sql trends_question)
           (answered_with_sql_offers _)).
  - reflexivity.
  - apply keyed_clear_not_pressed. reflexivity.
  - reflexivity.
Defined.

(** The same with a sample question pressed under a transcript whose reply
    carries a query. *)
Lemma sample_question_is_user_turn_witness :
  let w := keyed (is_sample trends_question) (one_row reply_sql) in
  let st := answered_with_sql revenue_question in
  sample_pressed w trends_question /\
  In trends_question sample_questions /\
  reaches_input w st = true /\
  clear_not_pressed w /\
  round_outcome sql_py w (snd (page w st)) = Crashed duplicate_key /\
  exists r st' a,
    script_run sql_py w st = (r, st') /\
    messages st' = messages st ++ [Turn "user" (VStr trends_question); a] /\
    role a = "assistant" /\
    (r = inr tt \/ exists e log, r = inl e /\ st_button w log BtnClear = inl e).
Proof.
  cbv zeta.
  assert (Hin : In trends_question sample_questions).
  { right. right. right. left. reflexivity. }
  split; [ apply keyed_sample_pressed | ]. split; [ exact Hin | ].
  split; [ reflexivity | ].
  split; [ apply keyed_clear_not_pressed; reflexivity | ].
  split; [ reflexivity | ].
  apply (sample_question_is_user_turn sql_py
           (keyed (is_sample trends_question) (one_row reply_sql))
           trends_question (keyed_sample_pressed _ _)
           (answered_with_sql revenue_question) Hin).
  - reflexivity.
  - apply keyed_clear_not_pressed. reflexivity.
Defined.

(** A host that answers every button and reports only the suggestion [s]
    pressed is one where [s] is pressed in the sense above, with Clear not
    pressed. *)
Lemma selects_pressed w s :
  selects w s -> suggestion_pressed w s /\ clear_not_pressed w.
Proof.
  intros [Hchat Hb]. split; [ split; [ | split ] | ].
  - rewrite Hchat. reflexivity.
  - intros log. rewrite Hb, String.eqb_refl. discriminate.
  - intros log s'. rewrite Hb. intros [= E]. apply String.eqb_eq. exact E.
  - intros log. rewrite Hb. discriminate.
Qed.
